(** * VerifAI side panel: source ingestion and claim verification

    A shallow embedding of [panel.js] (the side-panel script of the VerifAI
    browser extension) and the properties of its ingestion and verification
    pipeline.

    The script is event driven: every handler runs to completion on the
    single JavaScript thread, each [await] is a sequencing point, and the
    only shared data is the global [appState] object.  Handlers are therefore
    embedded as functions in a state-and-exception monad over a [World] made
    of [appState], the log of observable effects (status messages, network
    requests, console output) and a clock.  Browser built-ins and remote
    services (the URL parser, [fetch], the HTML parser, Readability, PDF.js,
    mammoth, Tesseract, [FileReader], the judge endpoint) are taken as the
    fields of a [Platform] record, so every theorem holds for every
    behaviour of these collaborators. *)

From Stdlib Require Import ZArith NArith Ascii String DecimalString.
From stdpp Require Import base tactics numbers list strings gmap.

Local Open Scope Z_scope.

(** ** JavaScript strings and array primitives *)

Module JS.

(** A JavaScript string is a sequence of UTF-16 code units; [length],
    [substring] and [includes] all count code units. *)
Definition code_unit := N.
Definition jsstring := list code_unit.

(** ASCII literals of the script. *)
Definition lit (s : string) : jsstring :=
  N_of_ascii <$> list_ascii_of_string s.

Definition LF : code_unit := 10%N.
Definition DQUOTE : code_unit := 34%N.

(** [a === b] on strings. *)
Definition str_eqb (a b : jsstring) : bool := bool_decide (a = b).

(** [!s] for a string: only the empty string is falsy. *)
Definition falsy (s : jsstring) : bool :=
  match s with [] => true | _ :: _ => false end.

(** [a || b] on strings. *)
Definition or_else (a b : jsstring) : jsstring :=
  if falsy a then b else a.

(** ECMAScript WhiteSpace and LineTerminator code points, the characters
    removed by [String.prototype.trim]. *)
Definition isWhiteSpace (c : code_unit) : bool :=
  ((9 <=? c) && (c <=? 13) || (c =? 32) || (c =? 160) || (c =? 5760)
   || (8192 <=? c) && (c <=? 8202) || (c =? 8232) || (c =? 8233)
   || (c =? 8239) || (c =? 8287) || (c =? 12288) || (c =? 65279))%N.

Fixpoint trimStart (s : jsstring) : jsstring :=
  match s with
  | c :: s' => if isWhiteSpace c then trimStart s' else s
  | [] => []
  end.

Definition trimEnd (s : jsstring) : jsstring := rev (trimStart (rev s)).

Definition trim (s : jsstring) : jsstring := trimEnd (trimStart s).

(** [s.startsWith(p)]. *)
Fixpoint startsWith (s p : jsstring) : bool :=
  match p, s with
  | [], _ => true
  | _ :: _, [] => false
  | b :: p', a :: s' => (a =? b)%N && startsWith s' p'
  end.

(** [s.endsWith(p)]. *)
Definition endsWith (s p : jsstring) : bool := startsWith (rev s) (rev p).

(** [s.includes(p)]: [p] occurs at some position of [s]. *)
Fixpoint includes (s p : jsstring) : bool :=
  startsWith s p ||
  match s with
  | [] => false
  | _ :: s' => includes s' p
  end.

(** [s.toLowerCase()].  The script only compares the result with ASCII file
    extensions, so the mapping is given on the ASCII letters; other code
    units are left as they are. *)
Definition lower (c : code_unit) : code_unit :=
  if ((65 <=? c) && (c <=? 90))%N then (c + 32)%N else c.

Definition toLowerCase (s : jsstring) : jsstring := lower <$> s.

(** Clamp an index argument of [substring] into [0, len]. *)
Definition clamp (len i : Z) : Z := Z.min (Z.max i 0) len.

(** [s.substring(a, b)]: both indices are clamped to the string and swapped
    when out of order. *)
Definition substring (s : jsstring) (a b : Z) : jsstring :=
  let len := Z.of_nat (length s) in
  let a' := clamp len a in
  let b' := clamp len b in
  let from := Z.min a' b' in
  let to := Z.max a' b' in
  take (Z.to_nat (to - from)) (drop (Z.to_nat from) s).

(** [parts.join(sep)]. *)
Fixpoint join (parts : list jsstring) (sep : jsstring) : jsstring :=
  match parts with
  | [] => []
  | [p] => p
  | p :: rest => p ++ sep ++ join rest sep
  end.

(** Decimal rendering of an integral Number, as produced by template
    literals. *)
Definition Number_toString (z : Z) : jsstring :=
  lit (NilZero.string_of_int (Z.to_int z)).

(** Numbers that reach array indices: integers, or [NaN] (what [parseInt]
    gives on a missing attribute). *)
Inductive number :=
| Int (z : Z)
| NaN.

(** [n - k] with an integral right operand. *)
Definition minus (n : number) (k : Z) : number :=
  match n with
  | Int z => Int (z - k)
  | NaN => NaN
  end.

(** [n === m]. [NaN] is equal to nothing. *)
Definition num_eqb (n m : number) : bool :=
  match n, m with
  | Int a, Int b => a =? b
  | _, _ => false
  end.

(** ToIntegerOrInfinity on these numbers. *)
Definition ToIntegerOrInfinity (n : number) : Z :=
  match n with
  | Int z => z
  | NaN => 0
  end.

(** [arr.splice(start, deleteCount)], the array left behind.  A negative
    start counts from the end; the start is clamped to the array and the
    count to what remains after it. *)
Definition splice {A} (arr : list A) (start : number) (deleteCount : Z)
  : list A :=
  let len := Z.of_nat (length arr) in
  let relativeStart := ToIntegerOrInfinity start in
  let actualStart :=
    if relativeStart <? 0 then Z.max (len + relativeStart) 0
    else Z.min relativeStart len in
  let actualDeleteCount := Z.min (Z.max deleteCount 0) (len - actualStart) in
  take (Z.to_nat actualStart) arr
    ++ drop (Z.to_nat (actualStart + actualDeleteCount)) arr.

End JS.

Import JS.

(** ** Data model *)

(** A [File] handle as the script sees it: metadata only.  What reading the
    content gives is decided by the platform. *)
Record File := {
  file_name : jsstring;
  file_type : jsstring;
  file_size : Z
}.

(** The two shapes of object kept in [appState]: the record returned by
    [processFile] and the one returned by [fetchUrlContent]. *)
Inductive Source :=
| FileSource (name type : jsstring) (size : Z) (content timestamp : jsstring)
| UrlSource (url content title timestamp : jsstring).

(** [source.content] *)
Definition content (s : Source) : jsstring :=
  match s with
  | FileSource _ _ _ c _ => c
  | UrlSource _ c _ _ => c
  end.

(** [source.size], absent on url sources. *)
Definition size_of (s : Source) : option Z :=
  match s with
  | FileSource _ _ sz _ _ => Some sz
  | UrlSource _ _ _ _ => None
  end.

(** [source.name || source.title || source.url] *)
Definition label (s : Source) : jsstring :=
  match s with
  | FileSource n _ _ _ _ => or_else n (lit "undefined")
  | UrlSource u _ t _ => or_else t u
  end.

(** The global [appState].  [sourceContents] is a separate array, rebuilt by
    [updateSourceContents] from the other two; it is the array handed to
    verification. *)
Record AppState := {
  uploadedFiles : list Source;
  urlSources : list Source;
  pendingClaim : option jsstring;
  sourceContents : list Source
}.

Definition initial_appState : AppState :=
  {| uploadedFiles := []; urlSources := []; pendingClaim := None;
     sourceContents := [] |}.

(** Result of a call that may throw: the value, or the [message] of the
    [Error] thrown. *)
Inductive outcome (A : Type) :=
| Return (a : A)
| Throw (message : jsstring).
Arguments Return {A} a.
Arguments Throw {A} message.

(** ** Platform *)

(** [new URL(s)] *)
Record URLRecord := { protocol : jsstring; href : jsstring }.

(** [Response] of [fetch]. *)
Record Response := {
  status : Z;
  statusText : jsstring;
  body_text : jsstring
}.

(** [response.ok]: the status is in the range 200-299. *)
Definition ok (r : Response) : bool := (200 <=? status r) && (status r <=? 299).

(** A parsed HTML document, as far as the script looks at it. *)
Record Document := { doc_title : jsstring; body_innerText : jsstring }.

(** The body posted to the judge endpoint. *)
Record JudgeRequest := {
  authorization : jsstring;
  model : jsstring;
  system_content : jsstring;
  user_content : jsstring;
  temperature : jsstring;
  max_tokens : Z
}.

(** The judge's reply: HTTP status, [error.message] of the JSON body when it
    has one, and [choices[0].message.content], which throws when the body
    is not of that shape. *)
Record JudgeResponse := {
  judge_status : Z;
  judge_error_message : option jsstring;
  judge_content : outcome jsstring
}.

Definition judge_ok (r : JudgeResponse) : bool :=
  (200 <=? judge_status r) && (judge_status r <=? 299).

Record Platform := {
  (** [window.CONFIG.OPENAI_API_KEY] *)
  OPENAI_API_KEY : jsstring;
  (** [new URL(s)]; [None] when the constructor throws. *)
  URL : jsstring -> option URLRecord;
  (** [fetch(url)] *)
  fetch : jsstring -> outcome Response;
  (** [new DOMParser().parseFromString(html, 'text/html')] *)
  parseFromString : jsstring -> Document;
  (** [new Readability(doc).parse()]: the article's [textContent], or null. *)
  Readability_parse : Document -> outcome (option jsstring);
  (** [fetch] of the chat completions endpoint. *)
  fetch_judge : JudgeRequest -> outcome JudgeResponse;
  (** [window['pdfjs-dist/build/pdf']]: when loaded, the [str] of the text
      items of every page, or a failure anywhere on the way. *)
  pdfjsLib : option (File -> outcome (list (list jsstring)));
  (** [mammoth], when defined: [extractRawText(...).value]. *)
  mammoth : option (File -> outcome jsstring);
  (** [Tesseract], when defined: [recognize(...).data.text]. *)
  Tesseract : option (File -> outcome jsstring);
  (** [FileReader.readAsText]: the text on [onload], [None] on [onerror]. *)
  readAsText : File -> option jsstring;
  (** [new Date().toISOString()] at the n-th reading of the clock. *)
  toISOString : nat -> jsstring
}.

(** ** Effects *)

(** One row of the rendered source list: its label and the arguments written
    into its remove button, [removeSource(index, 'sourceType')]. *)
Record Row := { row_label : jsstring; row_index : Z; row_type : jsstring }.

Inductive Event :=
| StatusShown (message type : jsstring)
| ResultDisplayed (className innerHTML : jsstring)
| FileListRendered (rows : list Row)
| HttpGet (url : jsstring)
| JudgePost (request : JudgeRequest)
| ConsoleError (what message : jsstring)
| ConsoleWarn (what message : jsstring)
| HideScheduled (delay : Z).

Definition is_network_call (e : Event) : bool :=
  match e with
  | HttpGet _ | JudgePost _ => true
  | _ => false
  end.

Record World := {
  appState : AppState;
  events : list Event;
  clock : nat
}.

Definition initial_World : World :=
  {| appState := initial_appState; events := []; clock := 0 |}.

(** Handlers: state passing with exceptions. *)
Definition Task (A : Type) : Type := World -> World * outcome A.

Definition ret {A} (a : A) : Task A := fun w => (w, Return a).

Definition throw {A} (message : jsstring) : Task A :=
  fun w => (w, Throw message).

Definition bind {A B} (m : Task A) (k : A -> Task B) : Task B :=
  fun w =>
    match m w with
    | (w', Return a) => k a w'
    | (w', Throw e) => (w', Throw e)
    end.

(** [try { m } catch (error) { h error }] *)
Definition try_catch {A} (m : Task A) (h : jsstring -> Task A) : Task A :=
  fun w =>
    match m w with
    | (w', Return a) => (w', Return a)
    | (w', Throw e) => h e w'
    end.

Definition lift {A} (o : outcome A) : Task A := fun w => (w, o).

Definition emit (e : Event) : Task unit :=
  fun w =>
    ({| appState := appState w; events := events w ++ [e]; clock := clock w |},
     Return tt).

Definition get_appState : Task AppState := fun w => (w, Return (appState w)).

Definition put_appState (s : AppState) : Task unit :=
  fun w => ({| appState := s; events := events w; clock := clock w |}, Return tt).

Declare Scope task_scope.
Delimit Scope task_scope with task.
Bind Scope task_scope with Task.

Notation "x <- m ;; k" := (bind m (fun x => k))
  (at level 100, m at next level, right associativity) : task_scope.
Notation "m ;; k" := (bind m (fun _ => k))
  (at level 100, right associativity) : task_scope.

Local Open Scope task_scope.

(** ** The script *)

Section Panel.

Variable P : Platform.

(** [new Date().toISOString()] *)
Definition now : Task jsstring :=
  fun w =>
    ({| appState := appState w; events := events w; clock := S (clock w) |},
     Return (toISOString P (clock w))).

(** *** File processing utilities *)

Definition MAX_FILE_SIZE : Z := 10 * 1024 * 1024.

Definition ALLOWED_TYPES : list (jsstring * list jsstring) :=
  [ (lit "application/pdf", [lit ".pdf"]);
    (lit "application/msword", [lit ".doc"]);
    (lit "application/vnd.openxmlformats-officedocument.wordprocessingml.document",
     [lit ".docx"]);
    (lit "text/plain", [lit ".txt"]);
    (lit "image/jpeg", [lit ".jpg"; lit ".jpeg"]);
    (lit "image/png", [lit ".png"]);
    (lit "image/gif", [lit ".gif"]) ].

Definition isValidType (file : File) : bool :=
  existsb (str_eqb (file_type file)) (ALLOWED_TYPES.*1)
  || existsb (fun ext => endsWith (toLowerCase (file_name file)) ext)
       (concat (ALLOWED_TYPES.*2)).

(** [validateFile(file)]: returns [true] or throws. *)
Definition validateFile (file : File) : outcome bool :=
  if MAX_FILE_SIZE <? file_size file then
    Throw (lit "File " ++ [DQUOTE] ++ file_name file ++ [DQUOTE]
             ++ lit " exceeds 10MB limit")
  else if negb (isValidType file) then
    Throw (lit "File type not supported: " ++ file_name file)
  else Return true.

(** [readFileAsText(file)]: the promise resolves with the text or rejects. *)
Definition readFileAsText (file : File) : Task jsstring :=
  match readAsText P file with
  | Some text => ret text
  | None => throw (lit "Failed to read file: " ++ file_name file)
  end.

(** The loop of [extractTextFromPDF] over the pages. *)
Definition pdf_fullText (pages : list (list jsstring)) : jsstring :=
  fold_left
    (fun fullText items => fullText ++ (join items (lit " ") ++ [LF; LF]))
    pages [].

Definition extractTextFromPDF (file : File) : Task jsstring :=
  try_catch
    (match pdfjsLib P with
     | None => readFileAsText file
     | Some backend =>
         pages <- lift (backend file) ;;
         ret (trim (pdf_fullText pages))
     end)
    (fun error =>
       emit (ConsoleError (lit "PDF extraction error:") error) ;;
       readFileAsText file).

Definition extractTextFromWord (file : File) : Task jsstring :=
  try_catch
    (match mammoth P with
     | None => readFileAsText file
     | Some backend => lift (backend file)
     end)
    (fun error =>
       emit (ConsoleError (lit "Word document extraction error:") error) ;;
       readFileAsText file).

Definition image_sentinel (file : File) (note : string) : jsstring :=
  lit "[Image: " ++ file_name file ++ lit "]" ++ [LF] ++ lit note.

Definition extractTextFromImage (file : File) : Task jsstring :=
  try_catch
    (match Tesseract P with
     | None =>
         ret (image_sentinel file
                "OCR library not loaded. Please install Tesseract.js to extract text from images.")
     | Some recognize =>
         text <- lift (recognize file) ;;
         ret (or_else (trim text)
                (image_sentinel file "No text detected in image."))
     end)
    (fun error =>
       emit (ConsoleError (lit "Image OCR error:") error) ;;
       ret (image_sentinel file "Failed to extract text from image.")).

Definition is_pdf (file : File) : bool :=
  str_eqb (file_type file) (lit "application/pdf")
  || endsWith (toLowerCase (file_name file)) (lit ".pdf").

(** The name test is the match against [/\.(doc|docx)$/i]. *)
Definition is_word (file : File) : bool :=
  str_eqb (file_type file) (lit "application/msword")
  || str_eqb (file_type file)
       (lit "application/vnd.openxmlformats-officedocument.wordprocessingml.document")
  || endsWith (toLowerCase (file_name file)) (lit ".doc")
  || endsWith (toLowerCase (file_name file)) (lit ".docx").

Definition is_image (file : File) : bool :=
  startsWith (file_type file) (lit "image/").

Definition is_text (file : File) : bool :=
  str_eqb (file_type file) (lit "text/plain")
  || endsWith (toLowerCase (file_name file)) (lit ".txt").

(** The dispatch of [processFile] on the kind of file. *)
Definition extract (file : File) : Task jsstring :=
  if is_pdf file then extractTextFromPDF file
  else if is_word file then extractTextFromWord file
  else if is_image file then extractTextFromImage file
  else if is_text file then readFileAsText file
  else readFileAsText file.

Definition processFile (file : File) : Task Source :=
  try_catch
    (lift (validateFile file) ;;
     extractedText <- extract file ;;
     timestamp <- now ;;
     ret (FileSource (file_name file) (file_type file) (file_size file)
            extractedText timestamp))
    (fun error =>
       emit (ConsoleError (lit "File processing error:") error) ;;
       throw error).

(** *** URL fetching utilities *)

Definition validateUrl (urlString : jsstring) : bool :=
  match URL P urlString with
  | Some url =>
      str_eqb (protocol url) (lit "http:")
      || str_eqb (protocol url) (lit "https:")
  | None => false
  end.

(** [showStatus(message, type)] *)
Definition showStatus (message : jsstring) (type : string) : Task unit :=
  emit (StatusShown message (lit type)).

Definition fetchUrlContent (url : jsstring) : Task Source :=
  try_catch
    (if negb (validateUrl url) then
       throw (lit "Invalid URL format. Please use http:// or https://")
     else
       showStatus (lit "Fetching content from URL...") "loading" ;;
       emit (HttpGet url) ;;
       response <- lift (fetch P url) ;;
       if negb (ok response) then
         throw (lit "Failed to fetch URL: " ++ Number_toString (status response)
                  ++ lit " " ++ statusText response)
       else
         let htmlText := body_text response in
         let doc := parseFromString P htmlText in
         extractedContent <-
           try_catch
             (article <- lift (Readability_parse P doc) ;;
              ret (match article with
                   | Some textContent => textContent
                   | None => body_innerText doc
                   end))
             (fun error =>
                emit (ConsoleWarn
                        (lit "Readability parsing failed, using fallback") error) ;;
                ret (body_innerText doc)) ;;
         timestamp <- now ;;
         ret (UrlSource url extractedContent
                (or_else (doc_title doc) (lit "Untitled")) timestamp))
    (fun error =>
       emit (ConsoleError (lit "URL fetch error:") error) ;;
       throw error).

(** *** AI verification *)

Definition quoted (s : string) : jsstring := [DQUOTE] ++ lit s ++ [DQUOTE].

Definition NEXT_SOURCE : jsstring :=
  [LF; LF] ++ lit "=== NEXT SOURCE ===" ++ [LF; LF].

Definition system_prompt : jsstring :=
  join
    [ lit "You are a professional fact-checker. You will be given a CLAIM and SOURCE TEXTS from various documents and websites.";
      [];
      lit "Your job is to:";
      lit "1. Carefully analyze whether the SOURCE TEXTS support, contradict, or are insufficient to verify the CLAIM";
      lit "2. Provide a clear verdict: " ++ quoted "Supported" ++ lit ", "
        ++ quoted "Contradicted" ++ lit ", " ++ quoted "Partially Supported"
        ++ lit ", or " ++ quoted "Insufficient Evidence";
      lit "3. Explain your reasoning in 1-2 sentence, citing specific information from the sources";
      lit "4. Be precise - the claim must be accurately reflected in the sources, not just topically related";
      [];
      lit "Format your response as:";
      lit "[Your verdict]";
      lit "Explanation: [Your detailed explanation]" ]
    [LF].

(** The evidence string: every source's content, joined by the separator,
    cut to its first 100000 code units. *)
Definition combinedSourceText (sources : list Source) : jsstring :=
  substring (join (content <$> sources) NEXT_SOURCE) 0 100000.

Definition judge_request (claim : jsstring) (sources : list Source)
  : JudgeRequest :=
  {| authorization := lit "Bearer " ++ OPENAI_API_KEY P;
     model := lit "gpt-4";
     system_content := system_prompt;
     user_content :=
       lit "CLAIM: " ++ claim ++ [LF; LF] ++ lit "SOURCE TEXTS:" ++ [LF]
         ++ combinedSourceText sources;
     temperature := lit "0.3";
     max_tokens := 500 |}.

Definition verifyClaimWithAI (claim : jsstring) (sources : list Source)
  : Task jsstring :=
  try_catch
    (if falsy claim || (Z.of_nat (length (trim claim)) =? 0) then
       throw (lit "Please enter a claim to verify")
     else if Z.of_nat (length sources) =? 0 then
       throw (lit "Please add at least one source (file or URL) before verifying")
     else
       showStatus (lit "Analyzing claim against sources...") "loading" ;;
       let request := judge_request claim sources in
       emit (JudgePost request) ;;
       response <- lift (fetch_judge P request) ;;
       if negb (judge_ok response) then
         let fallback :=
           lit "API request failed: " ++ Number_toString (judge_status response) in
         throw (match judge_error_message response with
                | Some message => or_else message fallback
                | None => fallback
                end)
       else lift (judge_content response))
    (fun error =>
       emit (ConsoleError (lit "AI verification error:") error) ;;
       throw error).

(** *** UI updates *)

Definition attr (k v : string) : jsstring := lit k ++ lit "=" ++ quoted v.

(** The markup of [displayResult] before and after the interpolated
    [analysis]. *)
Definition result_markup_before : jsstring :=
  join
    [ [];
      lit "    <div " ++ attr "class" "result-header" ++ lit ">";
      lit "      <svg " ++ attr "xmlns" "http://www.w3.org/2000/svg" ++ lit " "
        ++ attr "fill" "none" ++ lit " " ++ attr "viewBox" "0 0 24 24"
        ++ lit " " ++ attr "stroke" "currentColor" ++ lit ">";
      lit "        <path " ++ attr "stroke-linecap" "round" ++ lit " "
        ++ attr "stroke-linejoin" "round" ++ lit " "
        ++ attr "stroke-width" "2" ++ lit " "
        ++ attr "d" "M9 12l2 2 4-4m6 2a9 9 0 11-18 0 9 9 0 0118 0z"
        ++ lit " />";
      lit "      </svg>";
      lit "      Verification Result";
      lit "    </div>";
      lit "    <div " ++ attr "style" "white-space: pre-wrap; line-height: 1.6;"
        ++ lit ">" ]
    [LF].

Definition result_markup_after : jsstring := lit "</div>" ++ [LF] ++ lit "  ".

(** The result type chosen by [displayResult]. *)
Definition resultType (analysis : jsstring) : jsstring :=
  if includes analysis (lit "Contradicted") || includes analysis (lit "False")
  then lit "invalid"
  else if includes analysis (lit "Insufficient")
          || includes analysis (lit "Partially")
  then lit "error"
  else lit "valid".

Definition displayResult (analysis : jsstring) : Task unit :=
  emit (ResultDisplayed
          (lit "result-box show " ++ resultType analysis)
          (result_markup_before ++ analysis ++ result_markup_after)).

(** The rows of [updateFileList]: files first, then urls, each with its
    position in that combined list and its [sourceType]. *)
Definition allSources (s : AppState) : list (Source * jsstring) :=
  ((fun f => (f, lit "file")) <$> uploadedFiles s)
    ++ ((fun u => (u, lit "url")) <$> urlSources s).

Definition updateFileList : Task unit :=
  s <- get_appState ;;
  if (Z.of_nat (length (uploadedFiles s)) =? 0)
     && (Z.of_nat (length (urlSources s)) =? 0)
  then emit (FileListRendered [])
  else
    emit (FileListRendered
            (imap (fun index source =>
                     {| row_label := label source.1;
                        row_index := Z.of_nat index;
                        row_type := source.2 |})
               (allSources s))).

(** *** State *)

Definition with_uploadedFiles (s : AppState) (l : list Source) : AppState :=
  {| uploadedFiles := l; urlSources := urlSources s;
     pendingClaim := pendingClaim s; sourceContents := sourceContents s |}.

Definition with_urlSources (s : AppState) (l : list Source) : AppState :=
  {| uploadedFiles := uploadedFiles s; urlSources := l;
     pendingClaim := pendingClaim s; sourceContents := sourceContents s |}.

Definition with_sourceContents (s : AppState) (l : list Source) : AppState :=
  {| uploadedFiles := uploadedFiles s; urlSources := urlSources s;
     pendingClaim := pendingClaim s; sourceContents := l |}.

(** [updateSourceContents()]: a new array, files then urls. *)
Definition updateSourceContents : Task unit :=
  s <- get_appState ;;
  put_appState (with_sourceContents s (uploadedFiles s ++ urlSources s)).

(** [window.removeSource(index, type)]; [type] is [None] for [undefined].
    The [fileIndex] the script computes in the first branch is never used. *)
Definition removeSource (index : number) (type : option jsstring) : Task unit :=
  s <- get_appState ;;
  (if bool_decide (type = Some (lit "file")) then
     put_appState (with_uploadedFiles s (splice (uploadedFiles s) index 1))
   else
     let urlIndex := minus index (Z.of_nat (length (uploadedFiles s))) in
     put_appState (with_urlSources s (splice (urlSources s) urlIndex 1))) ;;
  updateSourceContents ;;
  updateFileList.

(** [arr.push(x)] on the two collections. *)
Definition push_uploadedFile (x : Source) : Task unit :=
  s <- get_appState ;;
  put_appState (with_uploadedFiles s (uploadedFiles s ++ [x])).

Definition push_urlSource (x : Source) : Task unit :=
  s <- get_appState ;;
  put_appState (with_urlSources s (urlSources s ++ [x])).

(** *** Event handlers *)

(** Click on the fetch button, with the value of the url field. *)
Definition fetchUrlBtn_click (sourceUrl_value : jsstring) : Task unit :=
  let url := trim sourceUrl_value in
  if falsy url then showStatus (lit "Please enter a URL") "error"
  else
    try_catch
      (urlContent <- fetchUrlContent url ;;
       push_urlSource urlContent ;;
       updateSourceContents ;;
       updateFileList ;;
       showStatus (lit "URL content fetched successfully!") "valid" ;;
       emit (HideScheduled 2000))
      (fun error => showStatus (lit "Error: " ++ error) "error").

(** Click on the verify button, with the value of the claim box. *)
Definition verifyBtn_click (claimBox_value : jsstring) : Task unit :=
  let claim := trim claimBox_value in
  try_catch
    (s <- get_appState ;;
     analysis <- verifyClaimWithAI claim (sourceContents s) ;;
     displayResult analysis)
    (fun error => showStatus (lit "Error: " ++ error) "error").

(** The [for ... of] loop of [handleFiles]. *)
Fixpoint process_each (fileArray : list File) : Task unit :=
  match fileArray with
  | [] => ret tt
  | file :: rest =>
      processedFile <- processFile file ;;
      push_uploadedFile processedFile ;;
      process_each rest
  end.

Definition handleFiles (files : list File) : Task unit :=
  let fileArray := files in
  if Z.of_nat (length fileArray) =? 0 then ret tt
  else
    let n := Number_toString (Z.of_nat (length fileArray)) in
    showStatus (lit "Processing " ++ n ++ lit " file(s)...") "loading" ;;
    try_catch
      (process_each fileArray ;;
       updateSourceContents ;;
       updateFileList ;;
       showStatus (lit "Successfully processed " ++ n ++ lit " file(s)!") "valid" ;;
       emit (HideScheduled 2000))
      (fun error => showStatus (lit "Error: " ++ error) "error").

End Panel.

(** ** A sample platform

    A concrete platform on which the handlers can be run: no optional
    library is loaded, the network knows two pages, the judge answers
    "Supported", and one file cannot be read. *)

Module Sample.

Definition url_of_scheme (s : jsstring) : option URLRecord :=
  if startsWith s (lit "https://") then
    Some {| protocol := lit "https:"; href := s |}
  else if startsWith s (lit "http://") then
    Some {| protocol := lit "http:"; href := s |}
  else if startsWith s (lit "ftp://") then
    Some {| protocol := lit "ftp:"; href := s |}
  else None.

Definition pages (url : jsstring) : outcome Response :=
  if str_eqb url (lit "https://example.org/sky") then
    Return {| status := 200; statusText := lit "OK";
              body_text := lit "The sky is blue." |}
  else
    Return {| status := 404; statusText := lit "Not Found";
              body_text := lit "no such page" |}.

Definition verdict : jsstring :=
  lit "Supported" ++ [LF] ++ lit "Explanation: the source says so.".

Definition platform : Platform :=
  {| OPENAI_API_KEY := lit "sk-sample";
     URL := url_of_scheme;
     fetch := pages;
     parseFromString := fun html => {| doc_title := []; body_innerText := html |};
     Readability_parse := fun _ => Return None;
     fetch_judge := fun _ =>
       Return {| judge_status := 200; judge_error_message := None;
                 judge_content := Return verdict |};
     pdfjsLib := None;
     mammoth := None;
     Tesseract := None;
     readAsText := fun file =>
       if str_eqb (file_name file) (lit "broken.pdf") then None
       else Some (lit "The sky is blue.");
     toISOString := fun _ => lit "2026-01-24T12:00:00.000Z" |}.

(** The same platform with an OCR library that finds nothing but blanks. *)
Definition platform_with_ocr : Platform :=
  {| OPENAI_API_KEY := OPENAI_API_KEY platform;
     URL := URL platform;
     fetch := fetch platform;
     parseFromString := parseFromString platform;
     Readability_parse := Readability_parse platform;
     fetch_judge := fetch_judge platform;
     pdfjsLib := pdfjsLib platform;
     mammoth := mammoth platform;
     Tesseract := Some (fun _ => Return (lit "  " ++ [LF]));
     readAsText := readAsText platform;
     toISOString := toISOString platform |}.

Definition sky_txt : File :=
  {| file_name := lit "sky.txt"; file_type := lit "text/plain"; file_size := 16 |}.

Definition report_pdf : File :=
  {| file_name := lit "report.pdf"; file_type := lit "application/pdf";
     file_size := 2048 |}.

Definition broken_pdf : File :=
  {| file_name := lit "broken.pdf"; file_type := lit "application/pdf";
     file_size := 2048 |}.

Definition huge_pdf : File :=
  {| file_name := lit "huge.pdf"; file_type := lit "application/pdf";
     file_size := 10 * 1024 * 1024 + 1 |}.

Definition photo_png : File :=
  {| file_name := lit "photo.png"; file_type := lit "image/png";
     file_size := 4096 |}.

Definition sky_source : Source :=
  FileSource (lit "sky.txt") (lit "text/plain") 16 (lit "The sky is blue.")
    (lit "2026-01-24T12:00:00.000Z").

Definition page_source : Source :=
  UrlSource (lit "https://example.org/sky") (lit "The sky is blue.")
    (lit "Untitled") (lit "2026-01-24T12:00:00.000Z").

(** A source whose content alone is longer than the ceiling. *)
Definition long_source : Source :=
  FileSource (lit "long.txt") (lit "text/plain") 100001
    (repeat 97%N (Z.to_nat 100001)) (lit "2026-01-24T12:00:00.000Z").

Definition other_txt : Source :=
  FileSource (lit "grass.txt") (lit "text/plain") 19 (lit "The grass is green.")
    (lit "2026-01-24T12:00:01.000Z").

Definition other_page : Source :=
  UrlSource (lit "https://example.org/sea") (lit "The sea is deep.")
    (lit "Sea") (lit "2026-01-24T12:00:02.000Z").

(** A session with two files and two pages ingested. *)
Definition store : World :=
  {| appState :=
       {| uploadedFiles := [sky_source; other_txt];
          urlSources := [page_source; other_page];
          pendingClaim := None;
          sourceContents := [sky_source; other_txt; page_source; other_page] |};
     events := [];
     clock := 4 |}.

End Sample.

(** ** Vocabulary of the properties *)

(** [p] occurs in [s]. *)
Definition occurs_in (p s : jsstring) : Prop :=
  exists before after, s = before ++ p ++ after.

(** The network requests among the effects so far. *)
Definition network_calls (w : World) : list Event :=
  List.filter is_network_call (events w).

(** The error taxonomy of the design, identified by the messages the script
    throws. *)
Definition EmptyClaim : jsstring := lit "Please enter a claim to verify".

Definition NoSources : jsstring :=
  lit "Please add at least one source (file or URL) before verifying".

Definition InvalidUrl : jsstring :=
  lit "Invalid URL format. Please use http:// or https://".

Definition FetchFailed (code : Z) (text : jsstring) : jsstring :=
  lit "Failed to fetch URL: " ++ Number_toString code ++ lit " " ++ text.

Definition FileTooLarge (file : File) : jsstring :=
  lit "File " ++ [DQUOTE] ++ file_name file ++ [DQUOTE] ++ lit " exceeds 10MB limit".

Definition ReadFailed (file : File) : jsstring :=
  lit "Failed to read file: " ++ file_name file.

(** The [type] argument that [updateFileList] writes into the remove button
    of row [i]: the [sourceType] of the [i]-th entry of [allSources]. *)
Definition button_type (s : AppState) (i : Z) : option jsstring :=
  if i <? 0 then None else snd <$> allSources s !! Z.to_nat i.

(** The state left by [removeSource]. *)
Definition removed (s : AppState) (index : number) (type : option jsstring)
  : AppState :=
  let s1 :=
    if bool_decide (type = Some (lit "file")) then
      with_uploadedFiles s (splice (uploadedFiles s) index 1)
    else
      with_urlSources s
        (splice (urlSources s)
           (minus index (Z.of_nat (length (uploadedFiles s)))) 1) in
  with_sourceContents s1 (uploadedFiles s1 ++ urlSources s1).

(** [s] is the record [processFile] builds for [file]: its metadata, and as
    content the text its extraction resolves to. *)
Definition processed_from (P : Platform) (file : File) (s : Source) : Prop :=
  exists text timestamp,
    (forall w, (extract P file w).2 = Return text)
    /\ s = FileSource (file_name file) (file_type file) (file_size file)
            text timestamp.

(** [file] passes validation and can be read. *)
Definition processable (P : Platform) (file : File) : Prop :=
  validateFile file = Return true /\ readAsText P file <> None.

(** The PDF backend is missing, or fails on this file. *)
Definition pdf_backend_unavailable (P : Platform) (file : File) : Prop :=
  pdfjsLib P = None
  \/ exists backend e, pdfjsLib P = Some backend /\ backend file = Throw e.

(** The array read by verification agrees with the two collections. *)
Definition view_fresh (s : AppState) : Prop :=
  sourceContents s = uploadedFiles s ++ urlSources s.

(** ** The rest of the script *)

(** Two more built-ins, on the values the script gives them. *)
Module JSNumbers.

(** [x.toFixed(1)] for the quotient [x = num / den] of two positive
    integers: the integer [n] closest to [10 * x], the larger one on a tie,
    written with its last digit behind the point.  The script divides a
    file size by a power of two, which is exact on Numbers. *)
Definition toFixed1 (num den : Z) : jsstring :=
  let n := (20 * num + den) / (2 * den) in
  Number_toString (n / 10) ++ lit "." ++ Number_toString (n mod 10).

(** The value of a digit in a radix up to 36. *)
Definition digit_value (c : code_unit) : option Z :=
  if ((48 <=? c) && (c <=? 57))%N then Some (Z.of_N c - 48)
  else if ((97 <=? c) && (c <=? 122))%N then Some (Z.of_N c - 87)
  else if ((65 <=? c) && (c <=? 90))%N then Some (Z.of_N c - 55)
  else None.

(** The value of the longest prefix of digits of the radix, if there is
    one. *)
Fixpoint digits_prefix (radix : Z) (s : jsstring) (acc : option Z) : option Z :=
  match s with
  | c :: s' =>
      match digit_value c with
      | Some d =>
          if d <? radix then
            digits_prefix radix s' (Some (radix * default 0 acc + d))
          else acc
      | None => acc
      end
  | [] => acc
  end.

(** [parseInt(input)], [None] standing for [undefined].  The integers the
    script parses are positions in a list, far below 2^53, where the Number
    is the integer itself. *)
Definition parseInt (input : option jsstring) : number :=
  let inputString := default (lit "undefined") input in
  let S := trimStart inputString in
  let '(sign, S1) :=
    match S with
    | 45%N :: rest => (-1, rest)
    | 43%N :: rest => (1, rest)
    | _ => (1, S)
    end in
  let '(radix, S2) :=
    match S1 with
    | 48%N :: 120%N :: rest => (16, rest)
    | 48%N :: 88%N :: rest => (16, rest)
    | _ => (10, S1)
    end in
  match digits_prefix radix S2 None with
  | Some mathInt => Int (sign * mathInt)
  | None => NaN
  end.

End JSNumbers.

Import JSNumbers.

(** [formatFileSize(bytes)] *)
Definition formatFileSize (bytes : Z) : jsstring :=
  if bytes <? 1024 then Number_toString bytes ++ lit " B"
  else if bytes <? 1024 * 1024 then toFixed1 bytes 1024 ++ lit " KB"
  else toFixed1 bytes (1024 * 1024) ++ lit " MB".

(** The size column of a row of [updateFileList]:
    [source.size ? formatFileSize(source.size) : 'Web source']. *)
Definition size_text (source : Source) : jsstring :=
  match size_of source with
  | Some size => if size =? 0 then lit "Web source" else formatFileSize size
  | None => lit "Web source"
  end.

(** The attributes of the remove button in the markup of [updateFileList]. *)
Definition remove_button_attributes (row : Row) : list (jsstring * jsstring) :=
  [ (lit "class", lit "file-remove");
    (lit "onclick",
     lit "removeSource(" ++ Number_toString (row_index row) ++ lit ", '"
       ++ row_type row ++ lit "')") ].

(** [element.dataset.key]: the attribute [data-key], if the element has
    it. *)
Definition dataset (attributes : list (jsstring * jsstring)) (key : string)
  : option jsstring :=
  (fun found => found.2.2)
    <$> list_find (fun a => a.1 = lit "data-" ++ lit key) attributes.

(** The click listener on the file list; [target] is the row whose remove
    button [e.target.closest('.file-remove')] finds, if any. *)
Definition fileList_click (target : option Row) : Task unit :=
  match target with
  | Some row =>
      let removeBtn := remove_button_attributes row in
      let index := parseInt (dataset removeBtn "index") in
      let type := dataset removeBtn "type" in
      removeSource index type
  | None => ret tt
  end.

(** *** The pending claim *)

(** What the two scripts share with the browser: [chrome.storage.local], the
    claim box of the panel, the tabs for which the side panel was asked,
    and what was logged on the way. *)
Record Host := {
  storage : gmap string jsstring;
  claimBox : jsstring;
  panel_requests : list Z;
  logged : list jsstring;
  world : World
}.

(** The [info] of a click on a context menu entry. *)
Record MenuClick := { menuItemId : jsstring; selectionText : jsstring }.

(** The listener of [chrome.contextMenus.onClicked] in the background
    script; [open_panel] is [chrome.sidePanel.open] on a tab. *)
Definition onClicked (open_panel : Z -> outcome unit) (info : MenuClick)
    (tab_id : Z) (h : Host) : Host :=
  if str_eqb (menuItemId info) (lit "verifyClaim") then
    {| storage := <["pendingClaim" := selectionText info]> (storage h);
       claimBox := claimBox h;
       panel_requests := panel_requests h ++ [tab_id];
       logged :=
         match open_panel tab_id with
         | Return _ => logged h
         | Throw err => logged h ++ [lit "Error opening side panel:"; err]
         end;
       world := world h |}
  else h.

Definition with_pendingClaim (s : AppState) (c : option jsstring) : AppState :=
  {| uploadedFiles := uploadedFiles s; urlSources := urlSources s;
     pendingClaim := c; sourceContents := sourceContents s |}.

(** The start of the [DOMContentLoaded] handler of the panel: it takes the
    pending claim out of the storage.  Outside an extension [chrome] is
    missing and the handler only logs. *)
Definition panel_loaded (chrome_available : bool) (h : Host) : Host :=
  if chrome_available then
    match storage h !! "pendingClaim" with
    | Some claim =>
        if falsy claim then h
        else
          {| storage := delete "pendingClaim" (storage h);
             claimBox := claim;
             panel_requests := panel_requests h;
             logged := logged h;
             world :=
               {| appState := with_pendingClaim (appState (world h)) (Some claim);
                  events := events (world h);
                  clock := clock (world h) |} |}
    | None => h
    end
  else
    {| storage := storage h;
       claimBox := claimBox h;
       panel_requests := panel_requests h;
       logged :=
         logged h ++ [lit "Not running in extension context or no pending claim"];
       world := world h |}.

(** *** Sessions *)

(** What the user can do in the panel. *)
Inductive Action :=
| FilesChosen (files : list File)
| FetchClicked (sourceUrl_value : jsstring)
| VerifyClicked (claimBox_value : jsstring)
| RemoveClicked (index : number) (type : option jsstring)
| FileListClicked (target : option Row).

(** The handler each action runs. *)
Definition handler (P : Platform) (a : Action) : Task unit :=
  match a with
  | FilesChosen files => handleFiles P files
  | FetchClicked value => fetchUrlBtn_click P value
  | VerifyClicked value => verifyBtn_click P value
  | RemoveClicked index type => removeSource index type
  | FileListClicked target => fileList_click target
  end.

(** The state after a sequence of actions, each handler running to its end
    before the next one starts. *)
Fixpoint session (P : Platform) (actions : list Action) (w : World) : World :=
  match actions with
  | [] => w
  | a :: rest => session P rest (handler P a w).1
  end.

(** A record of a file within the size limit. *)
Definition file_within_limit (s : Source) : Prop :=
  match s with
  | FileSource _ _ size _ _ => size <= MAX_FILE_SIZE
  | UrlSource _ _ _ _ => False
  end.

(** A record of a page fetched from an accepted url, with a title. *)
Definition fetched_page (P : Platform) (s : Source) : Prop :=
  match s with
  | FileSource _ _ _ _ _ => False
  | UrlSource url _ title _ => validateUrl P url = true /\ title <> []
  end.

(** What every reachable store satisfies. *)
Definition store_ok (P : Platform) (s : AppState) : Prop :=
  Forall file_within_limit (uploadedFiles s)
  /\ Forall (fetched_page P) (urlSources s)
  /\ sourceContents s `sublist_of` uploadedFiles s ++ urlSources s.

(** A task that sends nothing over the network. *)
Definition quiet {A} (m : Task A) : Prop :=
  forall w, network_calls (m w).1 = network_calls w.

(** A task that leaves [appState] as it is. *)
Definition keeps_store {A} (m : Task A) : Prop :=
  forall w, appState (m w).1 = appState w.

(** The requests an action sends, in the state it starts from. *)
Definition requests_of (P : Platform) (a : Action) (w : World) : list Event :=
  match a with
  | FetchClicked value =>
      if negb (falsy (trim value)) && validateUrl P (trim value)
      then [HttpGet (trim value)]
      else []
  | VerifyClicked value =>
      match trim value, sourceContents (appState w) with
      | [], _ => []
      | _ :: _, [] => []
      | claim, sources => [JudgePost (judge_request P claim sources)]
      end
  | _ => []
  end.

(** Every code unit of [s] is white space. *)
Definition blank (s : jsstring) : Prop := Forall (fun c => isWhiteSpace c = true) s.

(** The text of one page of a PDF, from the [str] of its items. *)
Definition pageText (items : list jsstring) : jsstring := join items (lit " ").

(** The extensions of [ALLOWED_TYPES]. *)
Definition allowed_extensions : list jsstring := concat (ALLOWED_TYPES.*2).

(** The Word backend is missing, or fails on this file. *)
Definition word_backend_unavailable (P : Platform) (file : File) : Prop :=
  mammoth P = None
  \/ exists backend e, mammoth P = Some backend /\ backend file = Throw e.

(** More sample platforms and files. *)
Module Samples.

(** The sample platform with a judge that refuses the key. *)
Definition judge_down : Platform :=
  {| OPENAI_API_KEY := OPENAI_API_KEY Sample.platform;
     URL := URL Sample.platform;
     fetch := fetch Sample.platform;
     parseFromString := parseFromString Sample.platform;
     Readability_parse := Readability_parse Sample.platform;
     fetch_judge := fun _ =>
       Return {| judge_status := 401;
                 judge_error_message := Some (lit "Incorrect API key provided.");
                 judge_content := Throw (lit "Cannot read properties of undefined") |};
     pdfjsLib := pdfjsLib Sample.platform;
     mammoth := mammoth Sample.platform;
     Tesseract := Tesseract Sample.platform;
     readAsText := readAsText Sample.platform;
     toISOString := toISOString Sample.platform |}.

(** The sample platform with a PDF backend that finds two pages, and a Word
    backend that fails. *)
Definition with_backends : Platform :=
  {| OPENAI_API_KEY := OPENAI_API_KEY Sample.platform;
     URL := URL Sample.platform;
     fetch := fetch Sample.platform;
     parseFromString := parseFromString Sample.platform;
     Readability_parse := Readability_parse Sample.platform;
     fetch_judge := fetch_judge Sample.platform;
     pdfjsLib := Some (fun _ =>
       Return [[lit "The"; lit "sky"]; [lit "is"; lit "blue."]]);
     mammoth := Some (fun _ => Throw (lit "Can't find end of central directory"));
     Tesseract := Tesseract Sample.platform;
     readAsText := readAsText Sample.platform;
     toISOString := toISOString Sample.platform |}.

(** The sample platform with an OCR library that cannot run. *)
Definition ocr_down : Platform :=
  {| OPENAI_API_KEY := OPENAI_API_KEY Sample.platform;
     URL := URL Sample.platform;
     fetch := fetch Sample.platform;
     parseFromString := parseFromString Sample.platform;
     Readability_parse := Readability_parse Sample.platform;
     fetch_judge := fetch_judge Sample.platform;
     pdfjsLib := pdfjsLib Sample.platform;
     mammoth := mammoth Sample.platform;
     Tesseract := Some (fun _ => Throw (lit "Failed to load language data"));
     readAsText := fun _ => None;
     toISOString := toISOString Sample.platform |}.

Definition letter_docx : File :=
  {| file_name := lit "letter.docx";
     file_type :=
       lit "application/vnd.openxmlformats-officedocument.wordprocessingml.document";
     file_size := 8192 |}.

Definition notes_TXT : File :=
  {| file_name := lit "NOTES.TXT"; file_type := []; file_size := 120 |}.

Definition movie_mp4 : File :=
  {| file_name := lit "movie.mp4"; file_type := lit "video/mp4";
     file_size := 4096 |}.

(** A browser with nothing stored and an empty panel. *)
Definition fresh_host : Host :=
  {| storage := ∅; claimBox := []; panel_requests := []; logged := [];
     world := initial_World |}.

End Samples.

(** ** Sample runs *)

Example trim_sample : trim (lit "  claim  ") = lit "claim".
Proof. reflexivity. Qed.

Example includes_sample :
  includes (lit "Partially Supported") (lit "Supported") = true.
Proof. reflexivity. Qed.

Example endsWith_sample :
  endsWith (toLowerCase (lit "Report.PDF")) (lit ".pdf") = true.
Proof. reflexivity. Qed.

Example Number_toString_sample : Number_toString 404 = lit "404".
Proof. reflexivity. Qed.

Example splice_sample : splice [1; 2; 3] (Int 1) 1 = [1; 3].
Proof. reflexivity. Qed.

Example splice_from_the_end : splice [1; 2; 3] (Int (-1)) 1 = [1; 2].
Proof. reflexivity. Qed.

Example splice_NaN : splice [1; 2; 3] NaN 1 = [2; 3].
Proof. reflexivity. Qed.

Example splice_past_the_end : splice [1; 2; 3] (Int 7) 1 = [1; 2; 3].
Proof. reflexivity. Qed.

Example sample_ingest_text :
  uploadedFiles (appState (handleFiles Sample.platform [Sample.sky_txt] initial_World).1)
  = [Sample.sky_source].
Proof. reflexivity. Qed.

Example sample_ingest_page :
  urlSources
    (appState (fetchUrlBtn_click Sample.platform (lit " https://example.org/sky ")
                 initial_World).1)
  = [Sample.page_source].
Proof. reflexivity. Qed.

Example sample_verify :
  (verifyClaimWithAI Sample.platform (lit "The sky is blue") [Sample.sky_source]
     initial_World).2
  = Return Sample.verdict.
Proof. reflexivity. Qed.

Example sample_evidence :
  combinedSourceText [Sample.sky_source; Sample.page_source]
  = lit "The sky is blue." ++ [LF; LF] ++ lit "=== NEXT SOURCE ===" ++ [LF; LF]
      ++ lit "The sky is blue.".
Proof. reflexivity. Qed.

Example sample_resultType : resultType Sample.verdict = lit "valid".
Proof. reflexivity. Qed.

(** ** Facts about the string and array primitives *)

Module JSFacts.

Lemma startsWith_prefix s p :
  startsWith s p = true <-> exists rest, s = p ++ rest.
Proof.
  revert s. induction p as [|b p IH]; intros s.
  - split; [intros _; by exists s | by destruct s].
  - destruct s as [|a s]; simpl.
    + split; [done | intros [rest ?]; discriminate].
    + rewrite andb_true_iff, N.eqb_eq, IH. split.
      * intros [-> [rest ->]]. by exists rest.
      * intros [rest [= -> ->]]. split; [done | by exists rest].
Qed.

Lemma includes_occurs s p : includes s p = true <-> occurs_in p s.
Proof.
  unfold occurs_in. induction s as [|a s IH].
  - cbn [includes]. rewrite orb_false_r, startsWith_prefix. split.
    + intros [rest ->]. by exists [], rest.
    + intros [before [after H]]. destruct before; [by exists after|].
      discriminate.
  - cbn [includes]. rewrite orb_true_iff, startsWith_prefix, IH. split.
    + intros [[rest ->] | [before [after ->]]].
      * by exists [], rest.
      * by exists (a :: before), after.
    + intros [before [after H]]. destruct before as [|b before].
      * left. by exists after.
      * right. injection H as -> ->. by exists before, after.
Qed.

Lemma substring_from_0 s n :
  0 <= n -> substring s 0 n = take (Z.to_nat n) s.
Proof.
  intros Hn. unfold substring, clamp.
  set (len := Z.of_nat (length s)).
  assert (0 <= len) by lia.
  replace (Z.min (Z.max 0 0) len) with 0 by lia.
  replace (Z.max n 0) with n by lia.
  replace (Z.min 0 (Z.min n len)) with 0 by lia.
  replace (Z.max 0 (Z.min n len) - 0) with (Z.min n len) by lia.
  rewrite drop_0.
  destruct (Z.le_gt_cases n len).
  - by rewrite Z.min_l by lia.
  - rewrite Z.min_r by lia. rewrite !take_ge; [done | lia | lia].
Qed.

Lemma substring_long s n :
  0 <= n -> n < Z.of_nat (length s) ->
  Z.of_nat (length (substring s 0 n)) = n.
Proof.
  intros. rewrite substring_from_0, length_take by done. lia.
Qed.

Lemma substring_short s n :
  Z.of_nat (length s) <= n -> substring s 0 n = s.
Proof.
  intros. rewrite substring_from_0 by lia. apply take_ge. lia.
Qed.

Lemma or_else_nonempty a b : b <> [] -> or_else a b <> [].
Proof. unfold or_else. by destruct a. Qed.

Lemma falsy_nil s : falsy s = true <-> s = [].
Proof. by destruct s. Qed.

Section Splice.

Context {A : Type}.
Implicit Types (arr : list A) (i : Z).

Lemma splice_in_range arr i :
  0 <= i < Z.of_nat (length arr) ->
  splice arr (Int i) 1 = delete (Z.to_nat i) arr.
Proof.
  intros Hi. unfold splice. simpl.
  destruct (Z.ltb_spec i 0); [lia|].
  rewrite (Z.min_l i) by lia. rewrite (Z.max_l 1 0) by lia.
  rewrite (Z.min_l 1) by lia.
  rewrite delete_take_drop. do 2 f_equal. lia.
Qed.

Lemma splice_beyond arr i :
  Z.of_nat (length arr) <= i -> splice arr (Int i) 1 = arr.
Proof.
  intros Hi. unfold splice. simpl.
  destruct (Z.ltb_spec i 0); [lia|].
  rewrite (Z.min_r i) by lia.
  rewrite Z.sub_diag, (Z.min_r _ 0), Z.add_0_r by lia.
  apply take_drop.
Qed.

(** Whatever the start, [splice] with count 1 deletes one element or
    none. *)
Lemma splice_one arr start :
  splice arr start 1 = arr
  \/ exists k, (k < length arr)%nat /\ splice arr start 1 = delete k arr.
Proof.
  unfold splice.
  set (len := Z.of_nat (length arr)).
  set (a := if ToIntegerOrInfinity start <? 0
            then Z.max (len + ToIntegerOrInfinity start) 0
            else Z.min (ToIntegerOrInfinity start) len).
  assert (0 <= a <= len) as Ha.
  { unfold a, len. destruct (Z.ltb_spec (ToIntegerOrInfinity start) 0); lia. }
  simpl. rewrite (Z.max_l 1 0) by lia.
  destruct (Z.eq_dec a len) as [->|Hne].
  - left. rewrite Z.sub_diag, (Z.min_r 1 0), Z.add_0_r by lia.
    apply take_drop.
  - right. exists (Z.to_nat a). split; [lia|].
    rewrite (Z.min_l 1) by lia.
    rewrite delete_take_drop. do 2 f_equal. lia.
Qed.

Lemma splice_sublist arr start : splice arr start 1 `sublist_of` arr.
Proof.
  destruct (splice_one arr start) as [-> | [k [_ ->]]]; [done|].
  apply sublist_delete.
Qed.

End Splice.

End JSFacts.

Import JSFacts.

Local Arguments lit : simpl never.

Ltac run_task :=
  unfold showStatus;
  unfold try_catch, bind, ret, throw, lift, emit, get_appState, put_appState;
  cbn [fst snd appState events clock negb].

Ltac net_calls :=
  unfold network_calls; cbn [fst snd appState events clock];
  rewrite ?List.filter_app; cbn [List.filter is_network_call];
  rewrite ?app_nil_r; try reflexivity.

Lemma trim_nonempty claim :
  trim claim <> [] ->
  falsy claim || (Z.of_nat (length (trim claim)) =? 0) = false.
Proof.
  intros H. destruct claim as [|c claim]; [done|].
  cbn [falsy orb]. destruct (trim (c :: claim)); [done|]. reflexivity.
Qed.

Lemma trim_empty claim :
  trim claim = [] ->
  falsy claim || (Z.of_nat (length (trim claim)) =? 0) = true.
Proof. intros ->. apply orb_true_r. Qed.

(** C1. A claim that is empty after trimming makes [verifyClaimWithAI] throw
    the empty-claim error, and a claim that is not, together with an empty
    source list, makes it throw the no-sources error; in both cases no
    network request has been issued when it throws. *)
Theorem verify_preconditions (P : Platform) (claim : jsstring)
    (sources : list Source) (w : World) :
  (trim claim = [] -> sources <> [] ->
   (verifyClaimWithAI P claim sources w).2 = Throw EmptyClaim
   /\ network_calls (verifyClaimWithAI P claim sources w).1 = network_calls w)
  /\
  (trim claim <> [] -> sources = [] ->
   (verifyClaimWithAI P claim sources w).2 = Throw NoSources
   /\ network_calls (verifyClaimWithAI P claim sources w).1 = network_calls w).
Proof.
  split.
  - intros Hclaim _. unfold verifyClaimWithAI.
    rewrite (trim_empty _ Hclaim). run_task.
    split; [done | net_calls].
  - intros Hclaim ->. unfold verifyClaimWithAI.
    rewrite (trim_nonempty _ Hclaim).
    change (Z.of_nat (length (@nil Source)) =? 0) with true. run_task.
    split; [done | net_calls].
Qed.

Lemma verify_preconditions_witness :
  ((verifyClaimWithAI Sample.platform (lit "  ") [Sample.sky_source]
      initial_World).2 = Throw EmptyClaim
   /\ network_calls
        (verifyClaimWithAI Sample.platform (lit "  ") [Sample.sky_source]
           initial_World).1 = network_calls initial_World)
  /\
  ((verifyClaimWithAI Sample.platform (lit "claim") [] initial_World).2
     = Throw NoSources
   /\ network_calls
        (verifyClaimWithAI Sample.platform (lit "claim") [] initial_World).1
      = network_calls initial_World).
Proof.
  split.
  - apply (verify_preconditions Sample.platform (lit "  ") [Sample.sky_source]
             initial_World); [reflexivity | discriminate].
  - apply (verify_preconditions Sample.platform (lit "claim") [] initial_World);
      [vm_compute; discriminate | reflexivity].
Defined.

(** The claim is looked at first: a blank one is refused as empty even when
    there is no source either. *)
Example blank_claim_without_sources :
  (verifyClaimWithAI Sample.platform (lit "   ") [] initial_World).2
  = Throw EmptyClaim.
Proof. reflexivity. Qed.

Lemma sources_nonempty (sources : list Source) :
  sources <> [] -> (Z.of_nat (length sources) =? 0) = false.
Proof. destruct sources; [done|]. intros _. reflexivity. Qed.

(** Past its two preconditions, [verifyClaimWithAI] issues exactly one
    request, the one built by [judge_request], and hands back whatever the
    judge's reply amounts to. *)
Lemma verify_posts_once (P : Platform) (claim : jsstring)
    (sources : list Source) (w : World) :
  trim claim <> [] -> sources <> [] ->
  network_calls (verifyClaimWithAI P claim sources w).1
  = network_calls w ++ [JudgePost (judge_request P claim sources)]
  /\ forall r,
       fetch_judge P (judge_request P claim sources) = Return r ->
       judge_ok r = true ->
       (verifyClaimWithAI P claim sources w).2 = judge_content r.
Proof.
  intros Hclaim Hsources. unfold verifyClaimWithAI.
  rewrite (trim_nonempty _ Hclaim), (sources_nonempty _ Hsources). run_task.
  destruct (fetch_judge P (judge_request P claim sources)) as [r|e].
  - destruct (judge_ok r) eqn:Hok; cbn [negb fst snd].
    + destruct (judge_content r) as [c|e] eqn:Hcontent; cbn [fst snd].
      * split; [|intros ? [= <-] _; by rewrite Hcontent].
        net_calls.
      * split; [|intros ? [= <-] _; by rewrite Hcontent].
        net_calls.
    + split; [|intros ? [= <-]; by rewrite Hok].
      net_calls.
  - cbn [fst snd]. split; [|done].
    net_calls.
Qed.

(** C2. When the contents joined with the separator are longer than 100000
    code units, the evidence sent to the judge is their first 100000 code
    units; otherwise it is the joined string itself.  The request is sent in
    both cases and the outcome of the call is the judge's reply: the
    truncation raises nothing. *)
Theorem evidence_truncated_silently (P : Platform) (claim : jsstring)
    (sources : list Source) (w : World) :
  trim claim <> [] -> sources <> [] ->
  let joined := join (content <$> sources) NEXT_SOURCE in
  let sent := combinedSourceText sources in
  let request := judge_request P claim sources in
  network_calls (verifyClaimWithAI P claim sources w).1
    = network_calls w ++ [JudgePost request]
  /\ user_content request
     = lit "CLAIM: " ++ claim ++ [LF; LF] ++ lit "SOURCE TEXTS:" ++ [LF] ++ sent
  /\ (100000 < Z.of_nat (length joined) ->
      Z.of_nat (length sent) = 100000 /\ sent `prefix_of` joined)
  /\ (Z.of_nat (length joined) <= 100000 -> sent = joined)
  /\ (forall r, fetch_judge P request = Return r -> judge_ok r = true ->
      (verifyClaimWithAI P claim sources w).2 = judge_content r).
Proof.
  intros Hclaim Hsources joined sent request.
  destruct (verify_posts_once P claim sources w Hclaim Hsources) as [Hcalls Hres].
  split; [exact Hcalls|]. split; [reflexivity|].
  split; [|split; [|exact Hres]].
  - intros Hlong. subst sent. unfold combinedSourceText. fold joined. split.
    + by apply substring_long.
    + rewrite substring_from_0 by done. apply prefix_take.
  - intros Hshort. by apply substring_short.
Qed.

Lemma evidence_truncated_silently_witness :
  let sources := [Sample.long_source] in
  let claim := lit "The sky is blue" in
  let joined := join (content <$> sources) NEXT_SOURCE in
  let sent := combinedSourceText sources in
  let request := judge_request Sample.platform claim sources in
  network_calls (verifyClaimWithAI Sample.platform claim sources initial_World).1
    = network_calls initial_World ++ [JudgePost request]
  /\ user_content request
     = lit "CLAIM: " ++ claim ++ [LF; LF] ++ lit "SOURCE TEXTS:" ++ [LF] ++ sent
  /\ (100000 < Z.of_nat (length joined) ->
      Z.of_nat (length sent) = 100000 /\ sent `prefix_of` joined)
  /\ (Z.of_nat (length joined) <= 100000 -> sent = joined)
  /\ (forall r, fetch_judge Sample.platform request = Return r ->
      judge_ok r = true ->
      (verifyClaimWithAI Sample.platform claim sources initial_World).2
      = judge_content r).
Proof.
  apply (evidence_truncated_silently Sample.platform (lit "The sky is blue")
           [Sample.long_source] initial_World);
    [vm_compute; discriminate | discriminate].
Defined.

Example long_evidence_is_cut :
  Z.of_nat (length (join (content <$> [Sample.long_source]) NEXT_SOURCE)) = 100001
  /\ Z.of_nat (length (combinedSourceText [Sample.long_source])) = 100000.
Proof. split; vm_compute; reflexivity. Qed.

(** *** Removal by combined index *)

Lemma button_type_file (s : AppState) (i : Z) :
  0 <= i < Z.of_nat (length (uploadedFiles s)) ->
  button_type s i = Some (lit "file").
Proof.
  intros Hi. unfold button_type, allSources.
  destruct (Z.ltb_spec i 0); [lia|].
  destruct (lookup_lt_is_Some_2 (uploadedFiles s) (Z.to_nat i)) as [x Hx]; [lia|].
  rewrite lookup_app_l by (rewrite length_fmap; lia).
  by rewrite list_lookup_fmap, Hx.
Qed.

Lemma button_type_url (s : AppState) (i : Z) :
  let f := Z.of_nat (length (uploadedFiles s)) in
  f <= i < f + Z.of_nat (length (urlSources s)) ->
  button_type s i = Some (lit "url").
Proof.
  intros f Hi. unfold button_type, allSources. subst f.
  destruct (Z.ltb_spec i 0); [lia|].
  rewrite lookup_app_r by (rewrite length_fmap; lia).
  rewrite length_fmap, list_lookup_fmap.
  destruct (lookup_lt_is_Some_2 (urlSources s)
              (Z.to_nat i - length (uploadedFiles s))) as [x Hx]; [lia|].
  by rewrite Hx.
Qed.

(** Every row that [updateFileList] renders carries its position in the
    combined list and the type tag [button_type] gives for that position. *)
Lemma updateFileList_rows (w : World) :
  exists rows,
    events (updateFileList w).1 = events w ++ [FileListRendered rows]
    /\ forall k row,
         rows !! k = Some row ->
         row_index row = Z.of_nat k
         /\ button_type (appState w) (Z.of_nat k) = Some (row_type row).
Proof.
  unfold updateFileList. run_task.
  destruct ((Z.of_nat (length (uploadedFiles (appState w))) =? 0)
            && (Z.of_nat (length (urlSources (appState w))) =? 0));
    cbn [fst snd events]; eexists; (split; [reflexivity|]).
  - intros k row Hrow. by rewrite lookup_nil in Hrow.
  - intros k row Hrow. rewrite list_lookup_imap in Hrow.
    unfold button_type. destruct (Z.ltb_spec (Z.of_nat k) 0); [lia|].
    rewrite Nat2Z.id.
    destruct (allSources (appState w) !! k) as [[source type]|];
      [|discriminate].
    injection Hrow as <-. done.
Qed.

(** [updateFileList] only renders. *)
Lemma updateFileList_appState (w : World) :
  appState (updateFileList w).1 = appState w.
Proof.
  unfold updateFileList. run_task.
  by destruct ((Z.of_nat (length (uploadedFiles (appState w))) =? 0)
               && (Z.of_nat (length (urlSources (appState w))) =? 0)).
Qed.

Lemma removeSource_appState (index : number) (type : option jsstring)
    (w : World) :
  appState (removeSource index type w).1 = removed (appState w) index type.
Proof.
  unfold removeSource, removed, updateSourceContents.
  unfold bind at 1 2 3. unfold get_appState at 1. cbn [fst snd].
  destruct (bool_decide (type = Some (lit "file"))); run_task;
    match goal with
    | |- context [updateFileList ?w0] =>
        pose proof (updateFileList_appState w0) as Hrender;
        destruct (updateFileList w0) as [w1 [[]|e]]; cbn [fst snd] in *;
        by rewrite Hrender
    end.
Qed.

(** C3. In a store of [f] files and [u] urls, the remove button of row [i]
    deletes the [i]-th file and leaves the urls alone when [i < f], and
    deletes the [(i - f)]-th url and leaves the files alone when
    [f <= i < f + u].  For any index and type tag whatever, in range or not,
    [removeSource] leaves a well-formed store: nothing is added or
    reordered, at most one source is gone, the combined view is rebuilt
    from the two collections; an index past the end changes nothing. *)
Theorem removeSource_combined_index (w : World) (i : Z) :
  let s := appState w in
  let f := Z.of_nat (length (uploadedFiles s)) in
  let u := Z.of_nat (length (urlSources s)) in
  (0 <= i < f ->
   let s' := appState (removeSource (Int i) (button_type s i) w).1 in
   uploadedFiles s' = delete (Z.to_nat i) (uploadedFiles s)
   /\ urlSources s' = urlSources s)
  /\
  (f <= i < f + u ->
   let s' := appState (removeSource (Int i) (button_type s i) w).1 in
   urlSources s' = delete (Z.to_nat (i - f)) (urlSources s)
   /\ uploadedFiles s' = uploadedFiles s)
  /\
  (forall (index : number) (type : option jsstring),
   let s' := appState (removeSource index type w).1 in
   uploadedFiles s' `sublist_of` uploadedFiles s
   /\ urlSources s' `sublist_of` urlSources s
   /\ (length (uploadedFiles s) + length (urlSources s)
       <= S (length (uploadedFiles s') + length (urlSources s')))%nat
   /\ sourceContents s' = uploadedFiles s' ++ urlSources s'
   /\ pendingClaim s' = pendingClaim s
   /\ (forall k, index = Int k -> f + u <= k ->
       uploadedFiles s' = uploadedFiles s /\ urlSources s' = urlSources s)).
Proof.
  intros s f u. split; [|split].
  - intros Hi s'. subst s'. rewrite removeSource_appState.
    rewrite button_type_file by done. unfold removed.
    rewrite bool_decide_eq_true_2 by done. cbn.
    split; [by apply splice_in_range | done].
  - intros Hi s'. subst s'. rewrite removeSource_appState.
    rewrite button_type_url by done. unfold removed.
    rewrite bool_decide_eq_false_2 by done. cbn.
    split; [|done]. apply splice_in_range. subst f u s. lia.
  - intros index type s'. subst s'. rewrite removeSource_appState.
    unfold removed. fold s.
    destruct (bool_decide (type = Some (lit "file"))); cbn.
    + repeat split; try done.
      * apply splice_sublist.
      * destruct (splice_one (uploadedFiles s) index) as [-> | [k [Hk ->]]];
          [lia|]. rewrite length_delete by by apply lookup_lt_is_Some_2. lia.
      * subst. apply splice_beyond. lia.
    + repeat split; try done.
      * apply splice_sublist.
      * destruct (splice_one (urlSources s)
                    (minus index (Z.of_nat (length (uploadedFiles s)))))
          as [-> | [k [Hk ->]]]; [lia|].
        rewrite length_delete by by apply lookup_lt_is_Some_2. lia.
      * subst. cbn. apply splice_beyond. lia.
Qed.

Lemma removeSource_combined_index_witness :
  (uploadedFiles (appState (removeSource (Int 1) (Some (lit "file")) Sample.store).1)
     = [Sample.sky_source]
   /\ urlSources (appState (removeSource (Int 1) (Some (lit "file")) Sample.store).1)
      = [Sample.page_source; Sample.other_page])
  /\
  (urlSources (appState (removeSource (Int 2) (Some (lit "url")) Sample.store).1)
     = [Sample.other_page]
   /\ uploadedFiles (appState (removeSource (Int 2) (Some (lit "url")) Sample.store).1)
      = [Sample.sky_source; Sample.other_txt])
  /\
  (uploadedFiles (appState (removeSource (Int 4) None Sample.store).1)
     = [Sample.sky_source; Sample.other_txt]
   /\ urlSources (appState (removeSource (Int 4) None Sample.store).1)
      = [Sample.page_source; Sample.other_page]).
Proof.
  split; [|split].
  - apply (proj1 (removeSource_combined_index Sample.store 1)). simpl. lia.
  - apply (proj1 (proj2 (removeSource_combined_index Sample.store 2))).
    simpl. lia.
  - apply (proj2 (proj2 (removeSource_combined_index Sample.store 0))
             (Int 4) None) with (k := 4); [reflexivity | simpl; lia].
Defined.

(** What [splice] does with the indices no button carries: a negative one
    counts from the end, [NaN] addresses the first url. *)
Example removeSource_negative_index :
  uploadedFiles
    (appState (removeSource (Int (-1)) (Some (lit "file")) Sample.store).1)
  = [Sample.sky_source].
Proof. reflexivity. Qed.

Example removeSource_NaN :
  urlSources (appState (removeSource NaN None Sample.store).1)
  = [Sample.other_page].
Proof. reflexivity. Qed.

(** *** Ingestion of files *)

Section Ingestion.

Variable P : Platform.

Lemma readFileAsText_run (file : File) (w : World) :
  readFileAsText P file w
  = (w, match readAsText P file with
        | Some text => Return text
        | None => Throw (ReadFailed file)
        end).
Proof. unfold readFileAsText. by destruct (readAsText P file). Qed.

(** Case analysis on what the platform answers to an extractor. *)
Ltac case_platform :=
  repeat first
    [ progress (run_task; rewrite ?readFileAsText_run;
                cbn [fst snd appState events clock])
    | match goal with
      | |- context [match pdfjsLib ?Q with _ => _ end] =>
          destruct (pdfjsLib Q) eqn:?
      | |- context [match mammoth ?Q with _ => _ end] =>
          destruct (mammoth Q) eqn:?
      | |- context [match Tesseract ?Q with _ => _ end] =>
          destruct (Tesseract Q) eqn:?
      | |- context [match readAsText ?Q ?f with _ => _ end] =>
          destruct (readAsText Q f) eqn:?
      | |- context [match ?b ?f with Return _ => _ | Throw _ => _ end] =>
          destruct (b f) eqn:?
      end ].

Ltac case_kind file :=
  unfold extract;
  destruct (is_pdf file) eqn:?;
    [|destruct (is_word file) eqn:?;
      [|destruct (is_image file) eqn:?; [|destruct (is_text file) eqn:?]]];
  unfold extractTextFromPDF, extractTextFromWord, extractTextFromImage.

(** The extractors touch neither [appState] nor the clock. *)
Lemma extract_frame (file : File) (w : World) :
  appState (extract P file w).1 = appState w
  /\ clock (extract P file w).1 = clock w.
Proof. case_kind file; case_platform; done. Qed.

(** An extraction throws only the failure of the raw read. *)
Lemma extract_throws (file : File) (w : World) (e : jsstring) :
  (extract P file w).2 = Throw e ->
  readAsText P file = None /\ e = ReadFailed file.
Proof. case_kind file; case_platform; by intros [= <-]. Qed.

(** What an extraction gives does not depend on the state it starts in. *)
Lemma extract_result (file : File) (w w' : World) :
  (extract P file w).2 = (extract P file w').2.
Proof. case_kind file; case_platform; done. Qed.

(** [processFile] on a file that passes validation and whose extraction
    gives [text]. *)
Lemma processFile_ok (file : File) (w : World) (text : jsstring) :
  validateFile file = Return true ->
  (extract P file w).2 = Return text ->
  exists w',
    processFile P file w
    = (w', Return (FileSource (file_name file) (file_type file)
                     (file_size file) text (toISOString P (clock w))))
    /\ appState w' = appState w.
Proof.
  intros Hvalid Htext. unfold processFile. rewrite Hvalid. run_task.
  destruct (extract_frame file w) as [Happ Hclock].
  destruct (extract P file w) as [w1 o]. cbn [fst snd] in *. subst o.
  unfold now. cbn [fst snd]. rewrite Hclock. eexists. split; [reflexivity|].
  done.
Qed.

Lemma validateFile_returns (file : File) (b : bool) :
  validateFile file = Return b -> b = true.
Proof.
  unfold validateFile.
  destruct (MAX_FILE_SIZE <? file_size file); [done|].
  destruct (negb (isValidType file)); [done|]. by intros [= <-].
Qed.

(** [processFile] never touches [appState], and what it returns is the
    record of a validated file. *)
Lemma processFile_frame (file : File) (w : World) :
  appState (processFile P file w).1 = appState w
  /\ forall s, (processFile P file w).2 = Return s ->
       processed_from P file s /\ validateFile file = Return true.
Proof.
  unfold processFile.
  destruct (validateFile file) as [b|e] eqn:Hvalid; run_task; [|done].
  apply validateFile_returns in Hvalid as ->.
  destruct (extract_frame file w) as [Happ Hclock].
  pose proof (fun w' => extract_result file w' w) as Hsame.
  destruct (extract P file w) as [w1 [text|e]]; cbn [fst snd] in *.
  - unfold now. cbn [fst snd]. split; [done|].
    intros s [= <-]. split; [by eexists _, _ | done].
  - done.
Qed.

(** What [processFile] throws: the validation error, or the failure of the
    raw read of a validated file. *)
Lemma processFile_throws (file : File) (w : World) (e : jsstring) :
  (processFile P file w).2 = Throw e ->
  validateFile file = Throw e
  \/ (validateFile file = Return true
      /\ readAsText P file = None /\ e = ReadFailed file).
Proof.
  unfold processFile.
  destruct (validateFile file) as [b|e'] eqn:Hvalid; run_task.
  - apply validateFile_returns in Hvalid as ->.
    pose proof (extract_throws file w) as Hthrows.
    destruct (extract P file w) as [w1 [text|e']]; cbn [fst snd] in *.
    + unfold now. by cbn [fst snd].
    + intros [= <-]. right. split; [done|]. by apply Hthrows.
  - intros [= <-]. by left.
Qed.

(** The loop of [handleFiles]: it appends the records of a prefix of the
    batch, one per file and in order, every one of them validated; it
    touches nothing else in [appState]; and it stops at the first file whose
    processing throws. *)
Lemma process_each_run (files : list File) (w : World) :
  exists added,
    uploadedFiles (appState (process_each P files w).1)
      = uploadedFiles (appState w) ++ added
    /\ urlSources (appState (process_each P files w).1) = urlSources (appState w)
    /\ sourceContents (appState (process_each P files w).1)
       = sourceContents (appState w)
    /\ pendingClaim (appState (process_each P files w).1)
       = pendingClaim (appState w)
    /\ Forall2 (processed_from P) (take (length added) files) added
    /\ Forall (fun f => validateFile f = Return true) (take (length added) files)
    /\ match (process_each P files w).2 with
       | Return _ => length added = length files
       | Throw e =>
           exists file,
             files !! length added = Some file
             /\ (validateFile file = Throw e
                 \/ (validateFile file = Return true
                     /\ readAsText P file = None /\ e = ReadFailed file))
       end.
Proof.
  revert w. induction files as [|file rest IH]; intros w.
  - exists []. cbn. rewrite app_nil_r. repeat split; constructor.
  - remember (process_each P (file :: rest) w) as r eqn:Hr.
    cbn [process_each] in Hr. unfold bind at 1 in Hr.
    destruct (processFile_frame file w) as [Happ Hret].
    pose proof (processFile_throws file w) as Hthrow.
    destruct (processFile P file w) as [w1 [s|e]]; cbn [fst snd] in *.
    + destruct (Hret s eq_refl) as [Hfrom Hvalid].
      unfold push_uploadedFile in Hr. revert Hr. run_task.
      set (w2 := {| appState := _; events := events w1; clock := clock w1 |}).
      intros ->.
      destruct (IH w2)
        as (added & Hup & Hurl & Hview & Hpend & Hfrom' & Hvalid' & Hend).
      exists (s :: added). subst w2.
      cbn [appState uploadedFiles urlSources sourceContents pendingClaim
             with_uploadedFiles] in *.
      rewrite Happ in *. rewrite Hup, <- app_assoc.
      repeat split; try done.
      * cbn. by constructor.
      * cbn. by constructor.
      * destruct (process_each P rest _).2; [cbn; by f_equal | done].
    + subst r. exists []. rewrite app_nil_r. cbn [fst snd]. rewrite Happ.
      repeat split; try constructor.
      exists file. split; [done|]. by apply Hthrow.
Qed.

(** [appState] after [handleFiles]: the combined view is rebuilt when the
    loop ran to its end, and only then. *)
Lemma handleFiles_appState (files : list File) (w : World) :
  files <> [] ->
  exists w0,
    appState w0 = appState w /\ clock w0 = clock w
    /\ appState (handleFiles P files w).1
       = match (process_each P files w0).2 with
         | Return _ =>
             let s := appState (process_each P files w0).1 in
             with_sourceContents s (uploadedFiles s ++ urlSources s)
         | Throw _ => appState (process_each P files w0).1
         end.
Proof.
  intros Hfiles. unfold handleFiles.
  rewrite (proj2 (Z.eqb_neq _ 0)) by (destruct files; [done | cbn; lia]).
  run_task.
  match goal with
  | |- context [process_each P files ?w1] => exists w1
  end.
  split; [reflexivity|]. split; [reflexivity|].
  destruct (process_each P files _) as [w1 [[]|e]]; cbn [fst snd];
    [|reflexivity].
  unfold updateSourceContents. run_task.
  match goal with
  | |- context [updateFileList ?w2] =>
      pose proof (updateFileList_appState w2) as Hrender;
      destruct (updateFileList w2) as [w3 [[]|e]]; cbn [fst snd] in *;
      by rewrite Hrender
  end.
Qed.

Lemma pdf_fallback (file : File) (w : World) :
  is_pdf file = true -> pdf_backend_unavailable P file ->
  (extract P file w).2
  = match readAsText P file with
    | Some text => Return text
    | None => Throw (ReadFailed file)
    end.
Proof.
  intros Hpdf Hbackend. unfold extract. rewrite Hpdf.
  unfold extractTextFromPDF.
  destruct Hbackend as [-> | (backend & e & -> & Hthrow)]; run_task;
    rewrite ?Hthrow; case_platform; done.
Qed.

(** A batch of one validated file whose extraction gives [text]. *)
Lemma handleFiles_single (file : File) (w : World) (text : jsstring) :
  validateFile file = Return true ->
  (extract P file w).2 = Return text ->
  let s' := appState (handleFiles P [file] w).1 in
  uploadedFiles s'
    = uploadedFiles (appState w)
        ++ [FileSource (file_name file) (file_type file) (file_size file)
              text (toISOString P (clock w))]
  /\ urlSources s' = urlSources (appState w)
  /\ sourceContents s' = uploadedFiles s' ++ urlSources s'.
Proof.
  intros Hvalid Htext s'. subst s'.
  destruct (handleFiles_appState [file] w) as (w0 & Happ & Hclock & ->); [done|].
  rewrite (extract_result file w w0) in Htext.
  destruct (processFile_ok file w0 text Hvalid Htext) as (w1 & Hrun & Happ1).
  cbn [process_each]. unfold bind. rewrite Hrun.
  unfold push_uploadedFile. run_task. cbn.
  by rewrite Happ1, Happ, Hclock.
Qed.

(** A file that can be processed, standing in a batch behind files that
    can all be processed, has its record appended, whatever comes after
    it. *)
Lemma handleFiles_inserts (file : File) (before after : list File)
    (text : jsstring) (w : World) :
  Forall (processable P) before -> processable P file ->
  (extract P file w).2 = Return text ->
  exists timestamp,
    FileSource (file_name file) (file_type file) (file_size file) text timestamp
    ∈ uploadedFiles (appState (handleFiles P (before ++ file :: after) w).1).
Proof.
  intros Hbefore Hfile Htext.
  set (files := before ++ file :: after).
  assert (Forall (processable P) (take (S (length before)) files)) as Hok.
  { subst files. rewrite take_app_ge by lia.
    replace (S (length before) - length before)%nat with 1%nat by lia.
    apply Forall_app. split; [done | by constructor]. }
  destruct (handleFiles_appState files w) as (w0 & _ & _ & Hstate).
  { subst files. by destruct before. }
  destruct (process_each_run files w0)
    as (added & Hup & _ & _ & _ & Hfrom & _ & Hend).
  assert (length before < length added)%nat as Hlen.
  { destruct (process_each P files w0).2 as [[]|e].
    - rewrite Hend. subst files. rewrite length_app. cbn. lia.
    - destruct Hend as (bad & Hbad & Hwhy).
      destruct (Nat.le_gt_cases (length added) (length before)); [|done].
      exfalso. rewrite Forall_forall in Hok.
      destruct (Hok bad) as [Hvalid Hread].
      { apply (list_elem_of_lookup_2 _ (length added)).
        by rewrite lookup_take_lt by lia. }
      destruct Hwhy as [Hthrow | (_ & Hnone & _)]; congruence. }
  destruct (lookup_lt_is_Some_2 added (length before) Hlen) as [s Hs].
  assert (take (length added) files !! length before = Some file) as Hat.
  { rewrite lookup_take_lt by done. subst files. apply list_lookup_middle.
    done. }
  destruct (Forall2_lookup_lr _ _ _ _ _ _ Hfrom Hat Hs)
    as (text' & timestamp & Hextract & ->).
  assert (text' = text) as -> by (specialize (Hextract w); congruence).
  exists timestamp.
  assert (uploadedFiles (appState (handleFiles P files w).1)
          = uploadedFiles (appState (process_each P files w0).1)) as ->.
  { rewrite Hstate. by destruct (process_each P files w0).2. }
  rewrite Hup. apply elem_of_app. right.
  by apply (list_elem_of_lookup_2 _ (length before)).
Qed.

End Ingestion.

(** C4, as stated, fails: a PDF that passes validation but cannot be read,
    on a platform without PDF backend, makes the extraction throw; the
    error reaches [handleFiles] and no source is inserted. *)
Lemma extraction_raises_on_unreadable_file :
  validateFile Sample.broken_pdf = Return true
  /\ pdfjsLib Sample.platform = None
  /\ (extract Sample.platform Sample.broken_pdf initial_World).2
     = Throw (ReadFailed Sample.broken_pdf)
  /\ (processFile Sample.platform Sample.broken_pdf initial_World).2
     = Throw (ReadFailed Sample.broken_pdf)
  /\ uploadedFiles
       (appState (handleFiles Sample.platform [Sample.broken_pdf] initial_World).1)
     = [].
Proof. repeat split; reflexivity. Qed.

(** C4, as the script has it.  An extraction throws nothing but the failure
    of the raw read of the file ([readFileAsText] rejecting).  When the raw
    read succeeds the extraction resolves to a text; in particular, for a
    PDF whose backend is missing or throws, it resolves to the raw text of
    the file, and the source made of it is appended to the store (wherever
    the file stands in a batch whose earlier files can be processed). *)
Theorem extraction_raises_only_read_failure (P : Platform) (file : File)
    (before after : list File) (w : World) :
  (forall e, (extract P file w).2 = Throw e ->
   readAsText P file = None /\ e = ReadFailed file)
  /\
  (forall text, readAsText P file = Some text ->
   (exists t, (extract P file w).2 = Return t)
   /\ (is_pdf file = true -> pdf_backend_unavailable P file ->
       (extract P file w).2 = Return text
       /\ (validateFile file = Return true ->
           Forall (processable P) before ->
           exists timestamp,
             FileSource (file_name file) (file_type file) (file_size file)
               text timestamp
             ∈ uploadedFiles
                 (appState (handleFiles P (before ++ file :: after) w).1)))).
Proof.
  split; [apply extract_throws|].
  intros text Hread. split.
  - pose proof (extract_throws P file w) as Hthrows.
    destruct (extract P file w).2 as [t|e]; [by exists t|].
    destruct (Hthrows e eq_refl) as [Hnone _]. congruence.
  - intros Hpdf Hbackend.
    assert ((extract P file w).2 = Return text) as Htext.
    { by rewrite pdf_fallback, Hread. }
    split; [done|]. intros Hvalid Hbefore.
    apply handleFiles_inserts; [done | | done].
    split; [done | congruence].
Qed.

Lemma extraction_raises_only_read_failure_witness :
  (exists t, (extract Sample.platform Sample.report_pdf Sample.store).2 = Return t)
  /\ (extract Sample.platform Sample.report_pdf Sample.store).2
     = Return (lit "The sky is blue.")
  /\ exists timestamp,
       FileSource (lit "report.pdf") (lit "application/pdf") 2048
         (lit "The sky is blue.") timestamp
       ∈ uploadedFiles
           (appState
              (handleFiles Sample.platform
                 ([Sample.sky_txt] ++ Sample.report_pdf :: [Sample.huge_pdf])
                 Sample.store).1).
Proof.
  destruct (proj2 (extraction_raises_only_read_failure Sample.platform
                     Sample.report_pdf [Sample.sky_txt] [Sample.huge_pdf]
                     Sample.store)
              (lit "The sky is blue.") eq_refl) as [Hsome Hpdf].
  split; [exact Hsome|].
  destruct (Hpdf eq_refl (or_introl eq_refl)) as [Htext Hinsert].
  split; [exact Htext|].
  apply Hinsert; [reflexivity|].
  constructor; [|constructor]. split; [reflexivity | discriminate].
Defined.

(** Ingested on its own, such a file also shows in the combined view. *)
Example sample_ingest_pdf_without_backend :
  let s' :=
    appState (handleFiles Sample.platform [Sample.report_pdf] initial_World).1 in
  uploadedFiles s'
    = [FileSource (lit "report.pdf") (lit "application/pdf") 2048
         (lit "The sky is blue.") (lit "2026-01-24T12:00:00.000Z")]
  /\ sourceContents s' = uploadedFiles s' ++ urlSources s'.
Proof. split; reflexivity. Qed.

Lemma validateFile_size (file : File) :
  validateFile file = Return true -> file_size file <= MAX_FILE_SIZE.
Proof.
  unfold validateFile. destruct (Z.ltb_spec MAX_FILE_SIZE (file_size file));
    [done | lia].
Qed.

(** The records of validated files are within the size limit. *)
Lemma processed_sizes (P : Platform) (files : list File) (added : list Source) :
  Forall2 (processed_from P) files added ->
  Forall (fun f => validateFile f = Return true) files ->
  Forall (fun s => exists sz, size_of s = Some sz /\ sz <= MAX_FILE_SIZE) added.
Proof.
  induction 1 as [|file s files added (text & ts & _ & ->) _ IH];
    [constructor|].
  intros [Hvalid Hrest]%Forall_cons. constructor; [|by apply IH].
  exists (file_size file). split; [done | by apply validateFile_size].
Qed.

(** C6. A file larger than 10 MiB fails validation with the too-large
    error, which names the file and the limit.  A batch that contains it
    appends only records of files that come before it, each in order;
    none of them is over the limit; the url collection, the combined view
    and every source ingested earlier stay as they were. *)
Theorem oversized_file_rejected (P : Platform) (file : File)
    (before after : list File) (w : World) :
  MAX_FILE_SIZE < file_size file ->
  validateFile file = Throw (FileTooLarge file)
  /\ exists added,
       let s := appState w in
       let s' := appState (handleFiles P (before ++ file :: after) w).1 in
       uploadedFiles s' = uploadedFiles s ++ added
       /\ (length added <= length before)%nat
       /\ Forall2 (processed_from P) (take (length added) before) added
       /\ Forall (fun x => exists sz, size_of x = Some sz /\ sz <= MAX_FILE_SIZE)
            added
       /\ urlSources s' = urlSources s
       /\ sourceContents s' = sourceContents s
       /\ pendingClaim s' = pendingClaim s.
Proof.
  intros Hsize.
  assert (validateFile file = Throw (FileTooLarge file)) as Hinvalid.
  { unfold validateFile. by rewrite (proj2 (Z.ltb_lt _ _) Hsize). }
  split; [done|].
  set (files := before ++ file :: after).
  destruct (handleFiles_appState P files w) as (w0 & Happ & _ & Hstate).
  { subst files. by destruct before. }
  destruct (process_each_run P files w0)
    as (added & Hup & Hurl & Hview & Hpend & Hfrom & Hvalid & Hend).
  assert (length added <= length before)%nat as Hlen.
  { destruct (Nat.le_gt_cases (length added) (length before)); [done|].
    exfalso. rewrite Forall_forall in Hvalid.
    assert (validateFile file = Return true); [|congruence].
    apply Hvalid, (list_elem_of_lookup_2 _ (length before)).
    rewrite lookup_take_lt by lia. subst files.
    by rewrite list_lookup_middle. }
  exists added. cbn zeta. rewrite Hstate.
  destruct (process_each P files w0).2 as [[]|e].
  - exfalso. subst files. rewrite length_app in Hend. cbn in Hend. lia.
  - pose proof (processed_sizes _ _ _ Hfrom Hvalid) as Hsizes.
    subst files. rewrite take_app_le in Hfrom by done.
    rewrite Hup, Hurl, Hview, Hpend, Happ. done.
Qed.

Lemma oversized_file_rejected_witness :
  validateFile Sample.huge_pdf = Throw (FileTooLarge Sample.huge_pdf)
  /\ exists added,
       let s := appState Sample.store in
       let s' :=
         appState
           (handleFiles Sample.platform
              ([Sample.sky_txt] ++ Sample.huge_pdf :: [Sample.report_pdf])
              Sample.store).1 in
       uploadedFiles s' = uploadedFiles s ++ added
       /\ (length added <= length [Sample.sky_txt])%nat
       /\ Forall2 (processed_from Sample.platform)
            (take (length added) [Sample.sky_txt]) added
       /\ Forall (fun x => exists sz, size_of x = Some sz /\ sz <= MAX_FILE_SIZE)
            added
       /\ urlSources s' = urlSources s
       /\ sourceContents s' = sourceContents s
       /\ pendingClaim s' = pendingClaim s.
Proof.
  apply (oversized_file_rejected Sample.platform Sample.huge_pdf
           [Sample.sky_txt] [Sample.report_pdf] Sample.store).
  vm_compute. reflexivity.
Defined.

(** *** Verdict classification *)

Lemma displayResult_run (analysis : jsstring) (w : World) :
  displayResult analysis w
  = ({| appState := appState w;
        events :=
          events w
            ++ [ResultDisplayed (lit "result-box show " ++ resultType analysis)
                  (result_markup_before ++ analysis ++ result_markup_after)];
        clock := clock w |},
     Return tt).
Proof. reflexivity. Qed.

(** C5. [displayResult] classifies the reply by substring search: a reply
    in which "Contradicted" or "False" occurs gets the result type of a
    contradicted claim ([invalid]); otherwise one in which "Insufficient" or
    "Partially" occurs gets that of an inconclusive one ([error]); any other
    reply gets that of a supported claim ([valid]).  In every case the reply
    is written out unchanged between the two pieces of markup. *)
Theorem displayResult_classification (analysis : jsstring) (w : World) :
  let contradicted :=
    occurs_in (lit "Contradicted") analysis \/ occurs_in (lit "False") analysis in
  let inconclusive :=
    occurs_in (lit "Insufficient") analysis
    \/ occurs_in (lit "Partially") analysis in
  events (displayResult analysis w).1
    = events w
        ++ [ResultDisplayed (lit "result-box show " ++ resultType analysis)
              (result_markup_before ++ analysis ++ result_markup_after)]
  /\ (contradicted -> resultType analysis = lit "invalid")
  /\ (~ contradicted -> inconclusive -> resultType analysis = lit "error")
  /\ (~ contradicted -> ~ inconclusive -> resultType analysis = lit "valid").
Proof.
  intros contradicted inconclusive. subst contradicted inconclusive.
  rewrite displayResult_run. split; [reflexivity|].
  unfold resultType. rewrite <- !includes_occurs.
  destruct (includes analysis (lit "Contradicted")),
    (includes analysis (lit "False")),
    (includes analysis (lit "Insufficient")),
    (includes analysis (lit "Partially")); cbn [orb];
    repeat split; intros; try reflexivity;
    repeat match goal with
      | H : _ \/ _ |- _ => destruct H
      | H : ~ _ |- _ => exfalso; apply H; clear H; auto
      end; try discriminate.
Qed.

Lemma displayResult_classification_witness :
  resultType (lit "Contradicted" ++ [LF] ++ lit "Explanation: the source says otherwise.")
    = lit "invalid"
  /\ resultType (lit "Partially Supported" ++ [LF] ++ lit "Explanation: only in part.")
     = lit "error"
  /\ resultType Sample.verdict = lit "valid".
Proof.
  split; [|split].
  - apply (displayResult_classification
             (lit "Contradicted" ++ [LF]
                ++ lit "Explanation: the source says otherwise.") initial_World).
    left. apply includes_occurs. reflexivity.
  - apply (displayResult_classification
             (lit "Partially Supported" ++ [LF]
                ++ lit "Explanation: only in part.") initial_World).
    + rewrite <- !includes_occurs. vm_compute. intros [?|?]; discriminate.
    + right. apply includes_occurs. reflexivity.
  - apply (displayResult_classification Sample.verdict initial_World).
    + rewrite <- !includes_occurs. vm_compute. intros [?|?]; discriminate.
    + rewrite <- !includes_occurs. vm_compute. intros [?|?]; discriminate.
Defined.

(** *** OCR *)

(** [processFile] sends to the OCR every file of an image type that has
    neither a PDF nor a Word name. *)
Lemma extract_image (P : Platform) (file : File) :
  is_pdf file = false -> is_word file = false -> is_image file = true ->
  extract P file = extractTextFromImage P file.
Proof. intros Hpdf Hword Himage. unfold extract. by rewrite Hpdf, Hword, Himage. Qed.

(** C9. On an image, [extractTextFromImage] gives the sentinel
    "[Image: name]" followed by the note that the OCR library is not loaded
    when Tesseract is absent, and the same sentinel followed by "No text
    detected in image." when the recognition runs and finds only blanks.
    It always resolves, and never to the empty string. *)
Theorem image_extraction_sentinels (P : Platform) (file : File) (w : World) :
  (Tesseract P = None ->
   (extractTextFromImage P file w).2
   = Return (lit "[Image: " ++ file_name file ++ lit "]" ++ [LF]
             ++ lit "OCR library not loaded. Please install Tesseract.js to extract text from images."))
  /\
  (forall recognize text,
   Tesseract P = Some recognize -> recognize file = Return text ->
   trim text = [] ->
   (extractTextFromImage P file w).2
   = Return (lit "[Image: " ++ file_name file ++ lit "]" ++ [LF]
             ++ lit "No text detected in image."))
  /\
  (exists t, (extractTextFromImage P file w).2 = Return t /\ t <> []).
Proof.
  unfold extractTextFromImage, image_sentinel. split; [|split].
  - intros ->. by run_task.
  - intros recognize text -> Hrun Hblank. run_task.
    by rewrite Hrun, Hblank.
  - run_task. destruct (Tesseract P) as [recognize|]; run_task.
    + destruct (recognize file) as [text|e]; cbn [fst snd].
      * eexists. split; [reflexivity|]. by apply or_else_nonempty.
      * by eexists.
    + by eexists.
Qed.

Lemma image_extraction_sentinels_witness :
  (extractTextFromImage Sample.platform Sample.photo_png initial_World).2
    = Return (lit "[Image: photo.png]" ++ [LF]
              ++ lit "OCR library not loaded. Please install Tesseract.js to extract text from images.")
  /\ (extractTextFromImage Sample.platform_with_ocr Sample.photo_png
        initial_World).2
     = Return (lit "[Image: photo.png]" ++ [LF] ++ lit "No text detected in image.").
Proof.
  split.
  - apply (proj1 (image_extraction_sentinels Sample.platform Sample.photo_png
                    initial_World)). reflexivity.
  - apply (proj1 (proj2 (image_extraction_sentinels Sample.platform_with_ocr
                           Sample.photo_png initial_World))
             (fun _ => Return (lit "  " ++ [LF])) (lit "  " ++ [LF]));
      reflexivity.
Defined.

(** *** URL sources *)

Section Fetching.

Variable P : Platform.

Lemma validateUrl_true (urlString : jsstring) :
  validateUrl P urlString = true
  <-> exists url,
        URL P urlString = Some url
        /\ (protocol url = lit "http:" \/ protocol url = lit "https:").
Proof.
  unfold validateUrl, str_eqb. destruct (URL P urlString) as [url|].
  - rewrite orb_true_iff, !bool_decide_eq_true. split.
    + intros H. by exists url.
    + by intros (? & [= <-] & H).
  - split; [done | by intros (? & ? & _)].
Qed.

(** A refused url: [fetchUrlContent] throws before anything else happens,
    but for the console message of its handler. *)
Lemma fetchUrlContent_refused (url : jsstring) (w : World) :
  validateUrl P url = false ->
  fetchUrlContent P url w
  = ({| appState := appState w;
        events := events w ++ [ConsoleError (lit "URL fetch error:") InvalidUrl];
        clock := clock w |},
     Throw InvalidUrl).
Proof. intros Hurl. unfold fetchUrlContent. rewrite Hurl. by run_task. Qed.

(** An accepted url answered with a status outside 200-299. *)
Lemma fetchUrlContent_not_ok (url : jsstring) (r : Response) (w : World) :
  validateUrl P url = true -> fetch P url = Return r -> ok r = false ->
  fetchUrlContent P url w
  = ({| appState := appState w;
        events :=
          events w
            ++ [StatusShown (lit "Fetching content from URL...") (lit "loading");
                HttpGet url;
                ConsoleError (lit "URL fetch error:")
                  (FetchFailed (status r) (statusText r))];
        clock := clock w |},
     Throw (FetchFailed (status r) (statusText r))).
Proof.
  intros Hurl Hfetch Hok. unfold fetchUrlContent. rewrite Hurl. run_task.
  rewrite Hfetch, Hok. run_task. by rewrite <- !app_assoc.
Qed.

(** [fetchUrlContent] never touches [appState]. *)
Lemma fetchUrlContent_appState (url : jsstring) (w : World) :
  appState (fetchUrlContent P url w).1 = appState w.
Proof.
  unfold fetchUrlContent.
  destruct (validateUrl P url); run_task; [|done].
  destruct (fetch P url) as [r|e]; cbn [fst snd]; [|done].
  destruct (ok r); run_task; [|done].
  destruct (Readability_parse P (parseFromString P (body_text r)))
    as [[article|]|e]; by run_task.
Qed.

(** A click on the fetch button either leaves [appState] as it is or appends
    one url source and rebuilds the combined view. *)
Lemma fetchUrlBtn_click_appState (value : jsstring) (w : World) :
  let s := appState w in
  let s' := appState (fetchUrlBtn_click P value w).1 in
  s' = s
  \/ exists source,
       (fetchUrlContent P (trim value) w).2 = Return source
       /\ s' = with_sourceContents (with_urlSources s (urlSources s ++ [source]))
                 (uploadedFiles s ++ urlSources s ++ [source]).
Proof.
  intros s s'. subst s s'. unfold fetchUrlBtn_click.
  destruct (falsy (trim value)); [by left|].
  unfold push_urlSource, updateSourceContents. run_task.
  pose proof (fetchUrlContent_appState (trim value) w) as Happ.
  destruct (fetchUrlContent P (trim value) w) as [w1 [source|e]];
    cbn [fst snd] in *.
  - right. exists source. split; [done|].
    match goal with
    | |- context [updateFileList ?w2] =>
        pose proof (updateFileList_appState w2) as Hrender;
        destruct (updateFileList w2) as [w3 [[]|e]]; cbn [fst snd] in *;
        rewrite Hrender, Happ; reflexivity
    end.
  - by left.
Qed.

End Fetching.

(** C7. [validateUrl] is true exactly when the URL parser accepts the string
    and the scheme it finds is http or https; a string the parser rejects
    gives false (as a function to [bool] it cannot throw).  On a url for
    which it is false, [fetchUrlContent] throws the invalid-url error and no
    network request is issued. *)
Theorem validateUrl_gate (P : Platform) (urlString : jsstring) (w : World) :
  (validateUrl P urlString = true
   <-> exists url,
         URL P urlString = Some url
         /\ (protocol url = lit "http:" \/ protocol url = lit "https:"))
  /\ (URL P urlString = None -> validateUrl P urlString = false)
  /\ (validateUrl P urlString = false ->
      (fetchUrlContent P urlString w).2 = Throw InvalidUrl
      /\ network_calls (fetchUrlContent P urlString w).1 = network_calls w).
Proof.
  split; [apply validateUrl_true|]. split.
  - intros Hparse. unfold validateUrl. by rewrite Hparse.
  - intros Hurl. rewrite fetchUrlContent_refused by done.
    split; [done | net_calls].
Qed.

Lemma validateUrl_gate_witness :
  validateUrl Sample.platform (lit "not a url") = false
  /\ (fetchUrlContent Sample.platform (lit "ftp://example.org/sky.txt")
        initial_World).2 = Throw InvalidUrl
  /\ network_calls
       (fetchUrlContent Sample.platform (lit "ftp://example.org/sky.txt")
          initial_World).1 = network_calls initial_World.
Proof.
  split.
  - apply (proj1 (proj2 (validateUrl_gate Sample.platform (lit "not a url")
                           initial_World))). reflexivity.
  - apply (proj2 (proj2 (validateUrl_gate Sample.platform
                           (lit "ftp://example.org/sky.txt") initial_World))).
    reflexivity.
Defined.

(** C8. When the server answers an accepted url with a status outside
    200-299, [fetchUrlContent] throws the fetch-failed error made of the
    status code and the status text, and the click on the fetch button that
    ran it leaves the store as it was, reporting that error. *)
Theorem fetch_failure_inserts_nothing (P : Platform) (value : jsstring)
    (r : Response) (w : World) :
  let url := trim value in
  validateUrl P url = true -> fetch P url = Return r ->
  ~ (200 <= status r <= 299) ->
  (fetchUrlContent P url w).2 = Throw (FetchFailed (status r) (statusText r))
  /\ appState (fetchUrlBtn_click P value w).1 = appState w
  /\ (url <> [] ->
      last (events (fetchUrlBtn_click P value w).1)
      = Some (StatusShown
                (lit "Error: " ++ FetchFailed (status r) (statusText r))
                (lit "error"))).
Proof.
  intros url Hurl Hfetch Hstatus.
  assert (ok r = false) as Hok.
  { unfold ok. apply andb_false_iff.
    destruct (Z.leb_spec 200 (status r)); [|by left].
    destruct (Z.leb_spec (status r) 299); [lia | by right]. }
  pose proof (fetchUrlContent_not_ok P url r w Hurl Hfetch Hok) as Hrun.
  split; [by rewrite Hrun|].
  unfold fetchUrlBtn_click. fold url.
  destruct (falsy url) eqn:Hempty.
  - split; [done|]. intros Hne. apply falsy_nil in Hempty. done.
  - run_task. rewrite Hrun. run_task.
    split; [done|]. intros _. by rewrite last_snoc.
Qed.

Lemma fetch_failure_inserts_nothing_witness :
  (fetchUrlContent Sample.platform (lit "https://example.org/missing")
     Sample.store).2 = Throw (lit "Failed to fetch URL: 404 Not Found")
  /\ appState
       (fetchUrlBtn_click Sample.platform (lit " https://example.org/missing ")
          Sample.store).1 = appState Sample.store
  /\ (lit "https://example.org/missing" <> [] ->
      last (events
              (fetchUrlBtn_click Sample.platform
                 (lit " https://example.org/missing ") Sample.store).1)
      = Some (StatusShown (lit "Error: Failed to fetch URL: 404 Not Found")
                (lit "error"))).
Proof.
  apply (fetch_failure_inserts_nothing Sample.platform
           (lit " https://example.org/missing ")
           {| status := 404; statusText := lit "Not Found";
              body_text := lit "no such page" |}
           Sample.store);
    [reflexivity | reflexivity | simpl; lia].
Defined.

(** *** The combined view *)

(** The paths that rebuild the view after changing a collection:
    [removeSource], the fetch button, and a batch of files whose loop runs
    to its end. *)
Lemma removeSource_view (index : number) (type : option jsstring) (w : World) :
  view_fresh (appState (removeSource index type w).1).
Proof.
  rewrite removeSource_appState. unfold view_fresh, removed.
  by destruct (bool_decide (type = Some (lit "file"))).
Qed.

Lemma fetchUrlBtn_click_view (P : Platform) (value : jsstring) (w : World) :
  view_fresh (appState w) ->
  view_fresh (appState (fetchUrlBtn_click P value w).1).
Proof.
  intros Hfresh.
  destruct (fetchUrlBtn_click_appState P value w) as [-> | (source & _ & ->)];
    [done | reflexivity].
Qed.

Lemma handleFiles_complete_view (P : Platform) (files : list File) (w : World) :
  view_fresh (appState w) ->
  Forall (processable P) files ->
  view_fresh (appState (handleFiles P files w).1).
Proof.
  intros Hfresh Hall. destruct files as [|file rest]; [done|].
  destruct (handleFiles_appState P (file :: rest) w)
    as (w0 & _ & _ & ->); [done|].
  destruct (process_each_run P (file :: rest) w0)
    as (added & _ & _ & _ & _ & _ & _ & Hend).
  destruct (process_each P (file :: rest) w0).2 as [[]|e]; [reflexivity|].
  exfalso. destruct Hend as (bad & Hbad & Hwhy).
  rewrite Forall_forall in Hall.
  destruct (Hall bad (list_elem_of_lookup_2 _ _ _ Hbad)) as [Hvalid Hread].
  destruct Hwhy as [Hthrow | (_ & Hnone & _)]; congruence.
Qed.

(** The path that does not: when a file of a batch fails after another one
    has been appended, [handleFiles] goes to its handler without rebuilding
    the view. *)
Lemma handleFiles_failed_view (P : Platform) (good bad : File)
    (rest : list File) (text : jsstring) (w : World) :
  view_fresh (appState w) ->
  validateFile good = Return true -> readAsText P good = Some text ->
  validateFile bad <> Return true ->
  ~ view_fresh (appState (handleFiles P (good :: bad :: rest) w).1).
Proof.
  intros Hfresh Hgood Hread Hbad.
  destruct (handleFiles_appState P (good :: bad :: rest) w)
    as (w0 & Happ & _ & ->); [done|].
  destruct (process_each_run P (good :: bad :: rest) w0)
    as (added & Hup & Hurl & Hview & _ & _ & Hvalid & Hend).
  destruct (process_each P (good :: bad :: rest) w0).2 as [[]|e] eqn:Hloop.
  - exfalso. rewrite Hend, firstn_all, Forall_forall in Hvalid.
    apply Hbad, Hvalid. apply list_elem_of_further, list_elem_of_here.
  - unfold view_fresh. rewrite Hup, Hurl, Hview, Happ, Hfresh.
    destruct added as [|s added].
    + exfalso. destruct Hend as (file & [= <-] & [Hthrow | (_ & Hnone & _)]);
        congruence.
    + intros Heq. apply (f_equal length) in Heq.
      rewrite !length_app in Heq. cbn in Heq. lia.
Qed.

(** C10, at a batch that stops early.  Starting from the empty store, a
    batch of a good text file followed by an oversized one leaves the text
    file in [uploadedFiles] while [sourceContents], the array handed to
    verification, is still empty: the view read by verification is not the
    concatenation of the two collections, and a verification started now is
    refused for lack of sources. *)
Theorem stale_view_after_failed_batch :
  let w' :=
    (handleFiles Sample.platform [Sample.sky_txt; Sample.huge_pdf]
       initial_World).1 in
  uploadedFiles (appState w') = [Sample.sky_source]
  /\ urlSources (appState w') = []
  /\ sourceContents (appState w') = []
  /\ ~ view_fresh (appState w')
  /\ last (events (verifyBtn_click Sample.platform (lit "The sky is blue") w').1)
     = Some (StatusShown (lit "Error: " ++ NoSources) (lit "error")).
Proof.
  cbv zeta. repeat split; try reflexivity.
  unfold view_fresh. vm_compute. discriminate.
Qed.

(** ** Further properties of the script *)

(** *** The size column *)

Lemma toFixed1_rounds (num den : Z) :
  0 < den -> 0 <= num ->
  exists n,
    toFixed1 num den
    = Number_toString (n / 10) ++ lit "." ++ Number_toString (n mod 10)
    /\ - den < 2 * (den * n - 10 * num) <= den.
Proof.
  intros Hden Hnum. exists ((20 * num + den) / (2 * den)).
  split; [reflexivity|].
  pose proof (Z.div_mod (20 * num + den) (2 * den)) as Hdiv.
  pose proof (Z.mod_pos_bound (20 * num + den) (2 * den)) as Hmod.
  nia.
Qed.

(** X1. [formatFileSize] picks the unit by the thresholds 1024 and 1024^2,
    and the tenths [n] it prints differ from the true quotient by at most
    half a tenth: below 1024 the bytes are written as they are; from 1 KiB
    on, [n] tenths of a KB with [10 <= n <= 10240]; from 1 MiB on, [n]
    tenths of a MB, at most 100 for a file within the upload limit. *)
Theorem formatFileSize_accuracy (bytes : Z) :
  (bytes < 1024 -> formatFileSize bytes = Number_toString bytes ++ lit " B")
  /\
  (1024 <= bytes < 1024 * 1024 ->
   exists n,
     formatFileSize bytes
     = Number_toString (n / 10) ++ lit "." ++ Number_toString (n mod 10)
         ++ lit " KB"
     /\ 10 <= n <= 10240
     /\ -512 < 1024 * n - 10 * bytes <= 512)
  /\
  (1024 * 1024 <= bytes ->
   exists n,
     formatFileSize bytes
     = Number_toString (n / 10) ++ lit "." ++ Number_toString (n mod 10)
         ++ lit " MB"
     /\ 10 <= n
     /\ -524288 < 1048576 * n - 10 * bytes <= 524288
     /\ (bytes <= MAX_FILE_SIZE -> n <= 100)).
Proof.
  unfold formatFileSize, MAX_FILE_SIZE. split; [|split].
  - intros Hb. by rewrite (proj2 (Z.ltb_lt _ _) Hb).
  - intros [Hlo Hhi].
    rewrite (proj2 (Z.ltb_ge _ _) Hlo), (proj2 (Z.ltb_lt _ _) Hhi).
    destruct (toFixed1_rounds bytes 1024) as (n & -> & Hn); [lia | lia |].
    exists n. rewrite <- !app_assoc. split; [done | lia].
  - intros Hlo.
    rewrite (proj2 (Z.ltb_ge bytes 1024)) by lia.
    rewrite (proj2 (Z.ltb_ge _ _) Hlo).
    destruct (toFixed1_rounds bytes (1024 * 1024)) as (n & -> & Hn);
      [lia | lia |].
    exists n. rewrite <- !app_assoc. split; [done | lia].
Qed.

Lemma formatFileSize_accuracy_witness :
  formatFileSize 500 = lit "500 B"
  /\ (exists n,
        formatFileSize 1536
        = Number_toString (n / 10) ++ lit "." ++ Number_toString (n mod 10)
            ++ lit " KB"
        /\ 10 <= n <= 10240
        /\ -512 < 1024 * n - 10 * 1536 <= 512)
  /\ (exists n,
        formatFileSize 10485760
        = Number_toString (n / 10) ++ lit "." ++ Number_toString (n mod 10)
            ++ lit " MB"
        /\ 10 <= n
        /\ -524288 < 1048576 * n - 10 * 10485760 <= 524288
        /\ (10485760 <= MAX_FILE_SIZE -> n <= 100)).
Proof.
  split; [|split].
  - apply (proj1 (formatFileSize_accuracy 500)). lia.
  - apply (proj1 (proj2 (formatFileSize_accuracy 1536))). lia.
  - apply (proj2 (proj2 (formatFileSize_accuracy 10485760))). lia.
Defined.

(** X2. The last 51 sizes below 1 MiB round up to 1024.0 and are still
    printed in KB. *)
Theorem formatFileSize_just_below_MiB (bytes : Z) :
  1048525 <= bytes < 1048576 -> formatFileSize bytes = lit "1024.0 KB".
Proof.
  intros [Hlo Hhi]. unfold formatFileSize.
  rewrite (proj2 (Z.ltb_ge bytes 1024)) by lia.
  rewrite (proj2 (Z.ltb_lt bytes (1024 * 1024))) by lia.
  unfold toFixed1.
  replace ((20 * bytes + 1024) / (2 * 1024)) with 10240; [reflexivity|].
  apply (Z.div_unique _ _ _ (20 * bytes + 1024 - 10240 * 2048)); lia.
Qed.

Lemma formatFileSize_just_below_MiB_witness :
  formatFileSize 1048575 = lit "1024.0 KB".
Proof. apply (formatFileSize_just_below_MiB 1048575). lia. Defined.

Lemma formatFileSize_last (bytes : Z) : last (formatFileSize bytes) = Some 66%N.
Proof.
  unfold formatFileSize.
  destruct (bytes <? 1024); [|destruct (bytes <? 1024 * 1024)];
    by rewrite last_app.
Qed.

(** X3. The size column of a listed source reads "Web source" exactly when
    the source is a page or a file of 0 bytes: an empty file is listed as a
    web source. *)
Theorem size_text_web_source (source : Source) :
  size_text source = lit "Web source"
  <-> size_of source = None \/ size_of source = Some 0.
Proof.
  unfold size_text. destruct (size_of source) as [size|]; [|by split; auto].
  destruct (Z.eqb_spec size 0) as [->|Hne].
  - split; auto.
  - split.
    + intros Heq. apply (f_equal last) in Heq.
      rewrite formatFileSize_last in Heq. discriminate.
    + intros [? | [= ?]]; done.
Qed.

Lemma size_text_web_source_witness :
  size_text (FileSource (lit "empty.txt") (lit "text/plain") 0 []
               (lit "2026-01-24T12:00:00.000Z"))
  = lit "Web source".
Proof.
  apply (proj2 (size_text_web_source
                  (FileSource (lit "empty.txt") (lit "text/plain") 0 []
                     (lit "2026-01-24T12:00:00.000Z")))).
  right. reflexivity.
Defined.

(** *** The remove buttons *)







(** *** The click listener of the list *)

Lemma splice_NaN_drop {A} (arr : list A) : splice arr NaN 1 = drop 1 arr.
Proof.
  unfold splice. cbn [ToIntegerOrInfinity Z.ltb Z.compare].
  destruct arr as [|x arr]; [reflexivity|].
  set (len := Z.of_nat (length (x :: arr))).
  assert (1 <= len) by (subst len; cbn [length]; lia).
  rewrite (Z.min_l 0 len), (Z.max_l 1 0), Z.sub_0_r, (Z.min_l 1 len) by lia.
  reflexivity.
Qed.

(** X5. The buttons are rendered without [data-index] and [data-type], so
    the click listener of the list calls [removeSource(NaN, undefined)]
    whichever button was hit: it removes the first url source, if there is
    one, and never a file. *)
Theorem fileList_click_removes_first_url (row : Row) (w : World) :
  let s := appState w in
  let s' := appState (fileList_click (Some row) w).1 in
  fileList_click (Some row) w = removeSource NaN None w
  /\ uploadedFiles s' = uploadedFiles s
  /\ urlSources s' = drop 1 (urlSources s)
  /\ sourceContents s' = uploadedFiles s ++ drop 1 (urlSources s).
Proof.
  intros s s'.
  assert (fileList_click (Some row) w = removeSource NaN None w) as Hcall
    by reflexivity.
  split; [done|]. subst s'. rewrite Hcall, removeSource_appState.
  unfold removed. rewrite bool_decide_eq_false_2 by done. cbn.
  by rewrite splice_NaN_drop.
Qed.

(** *** Trimming *)

Module TrimFacts.

Lemma trimStart_blank_iff s : trimStart s = [] <-> blank s.
Proof.
  unfold blank. induction s as [|c s IH]; [by split; [constructor|]|].
  cbn. destruct (isWhiteSpace c) eqn:Hc.
  - rewrite IH. split; [by constructor | by inversion 1].
  - split; [done | inversion 1; congruence].
Qed.

Lemma trimStart_head s c t : trimStart s = c :: t -> isWhiteSpace c = false.
Proof.
  induction s as [|a s IH]; [done|]. cbn.
  destruct (isWhiteSpace a) eqn:Ha; [done|]. by intros [= <- _].
Qed.

Lemma trimStart_fixed c t : isWhiteSpace c = false -> trimStart (c :: t) = c :: t.
Proof. intros Hc. cbn. by rewrite Hc. Qed.

Lemma trimStart_idempotent s : trimStart (trimStart s) = trimStart s.
Proof.
  destruct (trimStart s) as [|c t] eqn:Hs; [done|].
  apply trimStart_fixed. by apply (trimStart_head s c t).
Qed.

(** [trimStart] takes a blank prefix away. *)
Lemma trimStart_split s : exists pre, s = pre ++ trimStart s /\ blank pre.
Proof.
  induction s as [|c s (pre & IH & Hpre)]; [by exists []; split; [|constructor]|].
  cbn. destruct (isWhiteSpace c) eqn:Hc.
  - exists (c :: pre). split; [cbn; by f_equal | by constructor].
  - exists []. split; [done | constructor].
Qed.

Lemma trimStart_app_blank s t : blank s -> trimStart (s ++ t) = trimStart t.
Proof.
  induction 1 as [|c s Hc _ IH]; [done|]. cbn. by rewrite Hc.
Qed.

Lemma trimStart_app s t : ~ blank s -> trimStart (s ++ t) = trimStart s ++ t.
Proof.
  induction s as [|c s IH]; intros Hs; [by destruct Hs; constructor|].
  cbn. destruct (isWhiteSpace c) eqn:Hc; [|done].
  apply IH. intros Hblank. apply Hs. by constructor.
Qed.

Lemma blank_rev s : blank s -> blank (rev s).
Proof. apply Forall_rev. Qed.

Lemma blank_app s t : blank s -> blank t -> blank (s ++ t).
Proof. intros. by apply Forall_app. Qed.

Lemma trimEnd_split s : exists post, s = trimEnd s ++ post /\ blank post.
Proof.
  destruct (trimStart_split (rev s)) as (pre & Hs & Hpre).
  exists (rev pre). split; [|by apply blank_rev].
  unfold trimEnd. by rewrite <- rev_app_distr, <- Hs, rev_involutive.
Qed.

Lemma trimEnd_app_blank s t : blank t -> trimEnd (s ++ t) = trimEnd s.
Proof.
  intros Ht. unfold trimEnd.
  by rewrite rev_app_distr, trimStart_app_blank by by apply blank_rev.
Qed.

Lemma trimEnd_idempotent s : trimEnd (trimEnd s) = trimEnd s.
Proof. unfold trimEnd. by rewrite rev_involutive, trimStart_idempotent. Qed.

Lemma trim_blank_iff s : trim s = [] <-> blank s.
Proof.
  unfold trim. split.
  - intros Hs. destruct (trimStart_split s) as (pre & Hpre & Hblank).
    destruct (trimEnd_split (trimStart s)) as (post & Hpost & Hblank').
    rewrite Hs in Hpost. cbn in Hpost. rewrite Hpre, Hpost.
    by apply blank_app.
  - intros Hs. by rewrite (proj2 (trimStart_blank_iff s) Hs).
Qed.

Lemma trim_app_blank s t : blank t -> trim (s ++ t) = trim s.
Proof.
  intros Ht. unfold trim.
  destruct (decide (blank s)) as [Hs|Hs].
  - rewrite (proj2 (trimStart_blank_iff (s ++ t))) by by apply blank_app.
    by rewrite (proj2 (trimStart_blank_iff s)).
  - by rewrite trimStart_app, trimEnd_app_blank.
Qed.

Lemma trim_idempotent s : trim (trim s) = trim s.
Proof.
  unfold trim.
  assert (trimStart (trimEnd (trimStart s)) = trimEnd (trimStart s)) as ->;
    [|apply trimEnd_idempotent].
  destruct (trimEnd_split (trimStart s)) as (post & Hpost & _).
  destruct (trimEnd (trimStart s)) as [|c t] eqn:Hend; [done|].
  apply trimStart_fixed.
  destruct (trimStart s) as [|c' t'] eqn:Hstart; [done|].
  injection Hpost as -> _. by apply (trimStart_head s c t').
Qed.

End TrimFacts.

Import TrimFacts.

(** *** What goes over the network *)

Section Quiet.

Context {A B : Type}.

Lemma quiet_ret (a : A) : quiet (ret a).
Proof. by intros w. Qed.

Lemma quiet_throw (e : jsstring) : quiet (@throw A e).
Proof. by intros w. Qed.

Lemma quiet_lift (o : outcome A) : quiet (lift o).
Proof. by intros w. Qed.

Lemma quiet_bind (m : Task A) (k : A -> Task B) :
  quiet m -> (forall a, quiet (k a)) -> quiet (bind m k).
Proof.
  intros Hm Hk w. unfold bind. specialize (Hm w).
  destruct (m w) as [w1 [a|e]]; cbn [fst] in *; [|done].
  by rewrite Hk.
Qed.

Lemma quiet_try_catch (m : Task A) (h : jsstring -> Task A) :
  quiet m -> (forall e, quiet (h e)) -> quiet (try_catch m h).
Proof.
  intros Hm Hh w. unfold try_catch. specialize (Hm w).
  destruct (m w) as [w1 [a|e]]; cbn [fst] in *; [done|].
  by rewrite Hh.
Qed.

End Quiet.

Lemma quiet_emit (e : Event) : is_network_call e = false -> quiet (emit e).
Proof. intros He w. unfold emit. net_calls. by rewrite He, app_nil_r. Qed.

Lemma quiet_showStatus (message : jsstring) (type : string) :
  quiet (showStatus message type).
Proof. by apply quiet_emit. Qed.

Lemma quiet_get_appState : quiet get_appState.
Proof. by intros w. Qed.

Lemma quiet_put_appState (s : AppState) : quiet (put_appState s).
Proof. by intros w. Qed.

Lemma quiet_now (P : Platform) : quiet (now P).
Proof. by intros w. Qed.

Create HintDb quiet.

#[local] Hint Resolve quiet_ret quiet_throw quiet_lift quiet_showStatus
  quiet_get_appState quiet_put_appState quiet_now : quiet.
#[local] Hint Extern 1 (quiet (bind _ _)) => apply quiet_bind; [|intros ?] : quiet.
#[local] Hint Extern 1 (quiet (try_catch _ _)) =>
  apply quiet_try_catch; [|intros ?] : quiet.
#[local] Hint Extern 1 (quiet (emit _)) => apply quiet_emit; reflexivity : quiet.
#[local] Hint Extern 2 (quiet (match ?x with _ => _ end)) => destruct x : quiet.
#[local] Hint Extern 2 (quiet (if ?b then _ else _)) => destruct b : quiet.

Lemma quiet_updateFileList : quiet updateFileList.
Proof. unfold updateFileList. auto 10 with quiet. Qed.

Lemma quiet_updateSourceContents : quiet updateSourceContents.
Proof. unfold updateSourceContents. auto with quiet. Qed.

#[local] Hint Resolve quiet_updateFileList quiet_updateSourceContents : quiet.

Lemma quiet_removeSource (index : number) (type : option jsstring) :
  quiet (removeSource index type).
Proof. unfold removeSource. auto 10 with quiet. Qed.

Lemma quiet_displayResult (analysis : jsstring) : quiet (displayResult analysis).
Proof. unfold displayResult. auto with quiet. Qed.

Lemma quiet_readFileAsText (P : Platform) (file : File) :
  quiet (readFileAsText P file).
Proof. unfold readFileAsText. auto with quiet. Qed.

#[local] Hint Resolve quiet_removeSource quiet_displayResult
  quiet_readFileAsText : quiet.

Lemma quiet_extract (P : Platform) (file : File) : quiet (extract P file).
Proof.
  unfold extract, extractTextFromPDF, extractTextFromWord,
    extractTextFromImage.
  auto 20 with quiet.
Qed.

#[local] Hint Resolve quiet_extract : quiet.

Lemma quiet_processFile (P : Platform) (file : File) : quiet (processFile P file).
Proof. unfold processFile. auto 20 with quiet. Qed.

#[local] Hint Resolve quiet_processFile : quiet.

Lemma quiet_process_each (P : Platform) (files : list File) :
  quiet (process_each P files).
Proof.
  induction files as [|file rest IH]; cbn [process_each];
    unfold push_uploadedFile; auto 20 with quiet.
Qed.

#[local] Hint Resolve quiet_process_each : quiet.

Lemma quiet_handleFiles (P : Platform) (files : list File) :
  quiet (handleFiles P files).
Proof. unfold handleFiles. auto 20 with quiet. Qed.

Lemma quiet_fileList_click (target : option Row) : quiet (fileList_click target).
Proof. unfold fileList_click. destruct target; auto with quiet. Qed.

Section Network.

Variable P : Platform.

Lemma fetchUrlContent_requests (url : jsstring) (w : World) :
  network_calls (fetchUrlContent P url w).1
  = network_calls w ++ (if validateUrl P url then [HttpGet url] else []).
Proof.
  unfold fetchUrlContent.
  destruct (validateUrl P url); run_task; [|net_calls].
  destruct (fetch P url) as [r|e]; cbn [fst snd]; [|net_calls].
  destruct (ok r); run_task; [|net_calls].
  destruct (Readability_parse P (parseFromString P (body_text r)))
    as [[article|]|e]; run_task; unfold now; cbn [fst snd]; net_calls.
Qed.

Lemma fetchUrlBtn_click_requests (value : jsstring) (w : World) :
  network_calls (fetchUrlBtn_click P value w).1
  = network_calls w ++ requests_of P (FetchClicked value) w.
Proof.
  unfold fetchUrlBtn_click, requests_of.
  destruct (falsy (trim value)); cbn [negb andb].
  { rewrite app_nil_r. by apply quiet_showStatus. }
  unfold try_catch, bind at 1.
  pose proof (fetchUrlContent_requests (trim value) w) as Hnet.
  destruct (fetchUrlContent P (trim value) w) as [w1 [source|e]];
    cbn [fst snd] in *; rewrite <- Hnet.
  - assert (quiet (push_urlSource source ;; updateSourceContents ;;
                   updateFileList ;;
                   showStatus (lit "URL content fetched successfully!") "valid" ;;
                   emit (HideScheduled 2000))) as Hquiet
      by (unfold push_urlSource; auto 20 with quiet).
    specialize (Hquiet w1).
    destruct ((push_urlSource source ;; _) w1) as [w2 [[]|e]];
      cbn [fst snd] in *; [done|].
    by rewrite quiet_showStatus.
  - by rewrite quiet_showStatus.
Qed.

(** [verifyClaimWithAI] refuses a blank claim or an empty list without a
    request. *)
Lemma verify_refused_quiet (claim : jsstring) (sources : list Source)
    (w : World) :
  trim claim = [] \/ sources = [] ->
  network_calls (verifyClaimWithAI P claim sources w).1 = network_calls w.
Proof.
  intros Hrefused. unfold verifyClaimWithAI.
  destruct (decide (trim claim = [])) as [Hclaim|Hclaim].
  - rewrite (trim_empty _ Hclaim). run_task. net_calls.
  - destruct Hrefused as [?| ->]; [done|].
    rewrite (trim_nonempty _ Hclaim).
    change (Z.of_nat (length (@nil Source)) =? 0) with true. run_task.
    net_calls.
Qed.

Lemma verifyBtn_click_requests (value : jsstring) (w : World) :
  network_calls (verifyBtn_click P value w).1
  = network_calls w ++ requests_of P (VerifyClicked value) w.
Proof.
  unfold verifyBtn_click, requests_of.
  unfold try_catch, bind at 1, get_appState. cbn [fst snd].
  unfold bind at 1.
  assert (network_calls
            (verifyClaimWithAI P (trim value) (sourceContents (appState w)) w).1
          = network_calls w
              ++ match trim value, sourceContents (appState w) with
                 | [], _ => []
                 | _ :: _, [] => []
                 | claim, sources => [JudgePost (judge_request P claim sources)]
                 end) as Hnet.
  { destruct (trim value) as [|c claim] eqn:Hclaim.
    - rewrite app_nil_r. apply verify_refused_quiet. by left.
    - destruct (sourceContents (appState w)) as [|x sources] eqn:Hsources.
      + rewrite app_nil_r. apply verify_refused_quiet. by right.
      + apply verify_posts_once; [|done].
        rewrite <- Hclaim, trim_idempotent, Hclaim. done. }
  destruct (verifyClaimWithAI P (trim value) (sourceContents (appState w)) w)
    as [w1 [analysis|e]]; cbn [fst snd] in *; rewrite <- Hnet.
  - pose proof (quiet_displayResult analysis w1) as Hquiet.
    destruct (displayResult analysis w1) as [w2 [[]|e]]; cbn [fst snd] in *;
      [done|].
    by rewrite quiet_showStatus.
  - by rewrite quiet_showStatus.
Qed.

(** X6. The traffic of the panel: choosing files, removing a source (by its
    button or through the listener of the list) send nothing; a click on
    the fetch button sends one GET to the trimmed url when it is not empty
    and passes [validateUrl], and nothing otherwise; a click on the verify
    button posts one request to the judge, built from the trimmed claim and
    the combined view, when neither is empty, and nothing otherwise. *)
Theorem handler_requests (a : Action) (w : World) :
  network_calls (handler P a w).1 = network_calls w ++ requests_of P a w.
Proof.
  destruct a as [files|value|value|index type|target]; cbn [handler].
  - cbn. rewrite app_nil_r. apply quiet_handleFiles.
  - apply fetchUrlBtn_click_requests.
  - apply verifyBtn_click_requests.
  - cbn. rewrite app_nil_r. apply quiet_removeSource.
  - cbn. rewrite app_nil_r. apply quiet_fileList_click.
Qed.

End Network.

(** *** The store along a session *)

Section KeepsStore.

Context {A B : Type}.

Lemma keeps_store_ret (a : A) : keeps_store (ret a).
Proof. by intros w. Qed.

Lemma keeps_store_throw (e : jsstring) : keeps_store (@throw A e).
Proof. by intros w. Qed.

Lemma keeps_store_lift (o : outcome A) : keeps_store (lift o).
Proof. by intros w. Qed.

Lemma keeps_store_bind (m : Task A) (k : A -> Task B) :
  keeps_store m -> (forall a, keeps_store (k a)) -> keeps_store (bind m k).
Proof.
  intros Hm Hk w. unfold bind. specialize (Hm w).
  destruct (m w) as [w1 [a|e]]; cbn [fst] in *; [|done].
  by rewrite Hk.
Qed.

Lemma keeps_store_try_catch (m : Task A) (h : jsstring -> Task A) :
  keeps_store m -> (forall e, keeps_store (h e)) -> keeps_store (try_catch m h).
Proof.
  intros Hm Hh w. unfold try_catch. specialize (Hm w).
  destruct (m w) as [w1 [a|e]]; cbn [fst] in *; [done|].
  by rewrite Hh.
Qed.

End KeepsStore.

Lemma keeps_store_emit (e : Event) : keeps_store (emit e).
Proof. by intros w. Qed.

Lemma keeps_store_showStatus (message : jsstring) (type : string) :
  keeps_store (showStatus message type).
Proof. by intros w. Qed.

Lemma keeps_store_get_appState : keeps_store get_appState.
Proof. by intros w. Qed.

Create HintDb keeps_store.

#[local] Hint Resolve keeps_store_ret keeps_store_throw keeps_store_lift
  keeps_store_emit keeps_store_showStatus keeps_store_get_appState
  : keeps_store.
#[local] Hint Extern 1 (keeps_store (bind _ _)) =>
  apply keeps_store_bind; [|intros ?] : keeps_store.
#[local] Hint Extern 1 (keeps_store (try_catch _ _)) =>
  apply keeps_store_try_catch; [|intros ?] : keeps_store.
#[local] Hint Extern 2 (keeps_store (match ?x with _ => _ end)) =>
  destruct x : keeps_store.
#[local] Hint Extern 2 (keeps_store (if ?b then _ else _)) =>
  destruct b : keeps_store.

Lemma keeps_store_displayResult (analysis : jsstring) :
  keeps_store (displayResult analysis).
Proof. unfold displayResult. auto with keeps_store. Qed.

Lemma keeps_store_verifyClaimWithAI (P : Platform) (claim : jsstring)
    (sources : list Source) :
  keeps_store (verifyClaimWithAI P claim sources).
Proof. unfold verifyClaimWithAI. auto 20 with keeps_store. Qed.

#[local] Hint Resolve keeps_store_displayResult keeps_store_verifyClaimWithAI
  : keeps_store.

Lemma keeps_store_verifyBtn_click (P : Platform) (value : jsstring) :
  keeps_store (verifyBtn_click P value).
Proof. unfold verifyBtn_click. auto 20 with keeps_store. Qed.

Lemma Forall_sublist {X} (Q : X -> Prop) (l1 l2 : list X) :
  l1 `sublist_of` l2 -> Forall Q l2 -> Forall Q l1.
Proof.
  induction 1 as [|x l1 l2 _ IH|x l1 l2 _ IH]; [done| |].
  - intros [Hx Hl]%Forall_cons. constructor; auto.
  - intros [_ Hl]%Forall_cons. auto.
Qed.

Section StoreInvariant.

Variable P : Platform.

Lemma removeSource_store_ok (index : number) (type : option jsstring)
    (w : World) :
  store_ok P (appState w) ->
  store_ok P (appState (removeSource index type w).1).
Proof.
  intros (Hfiles & Hurls & _). rewrite removeSource_appState.
  unfold removed, store_ok.
  destruct (bool_decide (type = Some (lit "file"))); cbn;
    (split; [|split; [|done]]);
    eauto using Forall_sublist, splice_sublist.
Qed.

(** What [fetchUrlContent] returns is a page of an accepted url, with a
    title. *)
Lemma fetchUrlContent_returns (url : jsstring) (w : World) (source : Source) :
  (fetchUrlContent P url w).2 = Return source -> fetched_page P source.
Proof.
  unfold fetchUrlContent.
  destruct (validateUrl P url) eqn:Hurl; run_task; [|done].
  destruct (fetch P url) as [r|e]; cbn [fst snd]; [|done].
  destruct (ok r); run_task; [|done].
  destruct (Readability_parse P (parseFromString P (body_text r)))
    as [[article|]|e]; run_task; unfold now; cbn [fst snd];
    intros [= <-]; (split; [done | by apply or_else_nonempty]).
Qed.

Lemma fetchUrlBtn_click_store_ok (value : jsstring) (w : World) :
  store_ok P (appState w) ->
  store_ok P (appState (fetchUrlBtn_click P value w).1).
Proof.
  intros (Hfiles & Hurls & Hview).
  destruct (fetchUrlBtn_click_appState P value w)
    as [-> | (source & Hsource & ->)]; [done|].
  apply fetchUrlContent_returns in Hsource.
  unfold store_ok. cbn. split; [done|]. split.
  - apply Forall_app. split; [done | by constructor].
  - done.
Qed.

Lemma handleFiles_store_ok (files : list File) (w : World) :
  store_ok P (appState w) ->
  store_ok P (appState (handleFiles P files w).1).
Proof.
  intros (Hfiles & Hurls & Hview). destruct files as [|file rest]; [done|].
  destruct (handleFiles_appState P (file :: rest) w)
    as (w0 & Happ & _ & ->); [done|].
  destruct (process_each_run P (file :: rest) w0)
    as (added & Hup & Hurl & Hsame & _ & Hfrom & Hvalid & _).
  pose proof (processed_sizes _ _ _ Hfrom Hvalid) as Hsizes.
  assert (Forall file_within_limit added) as Hadded.
  { eapply Forall_impl; [exact Hsizes|].
    intros [name type size text ts|] (sz & Hsz & Hle); [|done].
    injection Hsz as ->. done. }
  rewrite Happ in Hup, Hurl, Hsame.
  destruct (process_each P (file :: rest) w0).2 as [[]|e]; unfold store_ok;
    cbv zeta;
    cbn [uploadedFiles urlSources sourceContents with_sourceContents];
    rewrite Hup, Hurl, ?Hsame.
  - split; [by apply Forall_app|]. done.
  - split; [by apply Forall_app|]. split; [done|].
    etrans; [exact Hview|].
    apply sublist_app; [by apply sublist_inserts_r | done].
Qed.

Lemma handler_store_ok (a : Action) (w : World) :
  store_ok P (appState w) -> store_ok P (appState (handler P a w).1).
Proof.
  destruct a as [files|value|value|index type|[row|]]; cbn [handler].
  - apply handleFiles_store_ok.
  - apply fetchUrlBtn_click_store_ok.
  - by rewrite keeps_store_verifyBtn_click.
  - apply removeSource_store_ok.
  - apply removeSource_store_ok.
  - done.
Qed.

(** X7. Whatever the user does, in any order and with any behaviour of the
    platform, the store stays well formed: [uploadedFiles] holds only file
    records within the 10 MiB limit, [urlSources] holds only pages fetched
    from urls that pass [validateUrl], each with a non-empty title, and the
    view read by verification shows no source that is not in the store
    (it is a sublist of files followed by urls). *)
Theorem session_store_ok (actions : list Action) :
  store_ok P (appState (session P actions initial_World)).
Proof.
  assert (forall w, store_ok P (appState w) ->
                    store_ok P (appState (session P actions w))) as Hgen.
  { induction actions as [|a rest IH]; intros w Hw; [done|].
    cbn [session]. by apply IH, handler_store_ok. }
  apply Hgen. unfold store_ok. cbn. by repeat constructor.
Qed.

End StoreInvariant.

(** *** Fetching a page *)



Lemma updateFileList_run (w : World) :
  exists rows,
    updateFileList w
    = ({| appState := appState w;
          events := events w ++ [FileListRendered rows];
          clock := clock w |},
       Return tt).
Proof.
  unfold updateFileList. run_task.
  destruct ((Z.of_nat (length (uploadedFiles (appState w))) =? 0)
            && (Z.of_nat (length (urlSources (appState w))) =? 0));
    by eexists.
Qed.

(** X9. A click on the fetch button: with a blank field it only shows
    "Please enter a URL"; when the fetch returns a source, that source is
    appended behind the url sources, the files are left alone and the
    combined view is rebuilt; when the fetch throws, for whatever reason,
    the store is left as it was and the error is shown. *)
Theorem fetchUrlBtn_click_outcome (P : Platform) (value : jsstring) (w : World) :
  let url := trim value in
  let s := appState w in
  let w' := (fetchUrlBtn_click P value w).1 in
  (url = [] ->
   appState w' = s
   /\ events w' = events w ++ [StatusShown (lit "Please enter a URL") (lit "error")])
  /\
  (url <> [] -> forall source,
   (fetchUrlContent P url w).2 = Return source ->
   uploadedFiles (appState w') = uploadedFiles s
   /\ urlSources (appState w') = urlSources s ++ [source]
   /\ sourceContents (appState w') = uploadedFiles s ++ urlSources s ++ [source]
   /\ last (events w') = Some (HideScheduled 2000))
  /\
  (url <> [] -> forall e,
   (fetchUrlContent P url w).2 = Throw e ->
   appState w' = s
   /\ last (events w') = Some (StatusShown (lit "Error: " ++ e) (lit "error"))).
Proof.
  intros url s w'. subst w' s. unfold fetchUrlBtn_click. fold url.
  split; [|split].
  - intros ->. by cbn.
  - intros Hurl source Hsource.
    destruct (falsy url) eqn:Hempty; [by apply falsy_nil in Hempty|].
    unfold push_urlSource, updateSourceContents. run_task.
    pose proof (fetchUrlContent_appState P url w) as Happ.
    destruct (fetchUrlContent P url w) as [w1 [source'|e]];
      cbn [fst snd] in *; [|done]. injection Hsource as ->.
    match goal with
    | |- context [updateFileList ?w2] =>
        destruct (updateFileList_run w2) as [rows ->]
    end.
    cbn [fst snd appState events clock uploadedFiles urlSources
           sourceContents with_urlSources with_sourceContents].
    rewrite Happ. repeat split. apply last_snoc.
  - intros Hurl e He.
    destruct (falsy url) eqn:Hempty; [by apply falsy_nil in Hempty|].
    run_task.
    pose proof (fetchUrlContent_appState P url w) as Happ.
    destruct (fetchUrlContent P url w) as [w1 [source|e']];
      cbn [fst snd] in *; [done|]. injection He as ->.
    cbn [appState events]. split; [done|]. apply last_snoc.
Qed.

Lemma fetchUrlBtn_click_outcome_witness :
  let w' :=
    (fetchUrlBtn_click Sample.platform (lit " https://example.org/sky ")
       Sample.store).1 in
  (uploadedFiles (appState w') = [Sample.sky_source; Sample.other_txt]
   /\ urlSources (appState w')
      = [Sample.page_source; Sample.other_page]
          ++ [UrlSource (lit "https://example.org/sky") (lit "The sky is blue.")
                (lit "Untitled") (lit "2026-01-24T12:00:00.000Z")]
   /\ sourceContents (appState w')
      = [Sample.sky_source; Sample.other_txt]
          ++ [Sample.page_source; Sample.other_page]
          ++ [UrlSource (lit "https://example.org/sky") (lit "The sky is blue.")
                (lit "Untitled") (lit "2026-01-24T12:00:00.000Z")]
   /\ last (events w') = Some (HideScheduled 2000))
  /\ (appState (fetchUrlBtn_click Sample.platform (lit "   ") Sample.store).1
      = appState Sample.store
      /\ events (fetchUrlBtn_click Sample.platform (lit "   ") Sample.store).1
         = events Sample.store
             ++ [StatusShown (lit "Please enter a URL") (lit "error")])
  /\ (appState
        (fetchUrlBtn_click Sample.platform (lit "ftp://example.org/x")
           Sample.store).1 = appState Sample.store
      /\ last (events
                 (fetchUrlBtn_click Sample.platform (lit "ftp://example.org/x")
                    Sample.store).1)
         = Some (StatusShown (lit "Error: " ++ InvalidUrl) (lit "error"))).
Proof.
  split; [|split].
  - apply (proj1 (proj2 (fetchUrlBtn_click_outcome Sample.platform
                           (lit " https://example.org/sky ") Sample.store)));
      [vm_compute; discriminate | reflexivity].
  - apply (proj1 (fetchUrlBtn_click_outcome Sample.platform (lit "   ")
                    Sample.store)). reflexivity.
  - apply (proj2 (proj2 (fetchUrlBtn_click_outcome Sample.platform
                           (lit "ftp://example.org/x") Sample.store)));
      [vm_compute; discriminate | reflexivity].
Defined.

(** *** Verifying *)

Section Verifying.

Variable P : Platform.

(** [verifyClaimWithAI] past its preconditions, on an answer of the judge. *)
Lemma verifyClaimWithAI_answered (claim : jsstring) (sources : list Source)
    (r : JudgeResponse) (w : World) :
  trim claim <> [] -> sources <> [] ->
  fetch_judge P (judge_request P claim sources) = Return r ->
  let sent :=
    [StatusShown (lit "Analyzing claim against sources...") (lit "loading");
     JudgePost (judge_request P claim sources)] in
  let fallback :=
    lit "API request failed: " ++ Number_toString (judge_status r) in
  let result :=
    if judge_ok r then judge_content r
    else Throw (match judge_error_message r with
                | Some message => or_else message fallback
                | None => fallback
                end) in
  verifyClaimWithAI P claim sources w
  = ({| appState := appState w;
        events :=
          events w ++ sent
            ++ match result with
               | Return _ => []
               | Throw e => [ConsoleError (lit "AI verification error:") e]
               end;
        clock := clock w |},
     result).
Proof.
  intros Hclaim Hsources Hjudge sent fallback result.
  subst sent fallback result. unfold verifyClaimWithAI.
  rewrite (trim_nonempty _ Hclaim), (sources_nonempty _ Hsources). run_task.
  rewrite Hjudge.
  destruct (judge_ok r); cbn [negb fst snd].
  - destruct (judge_content r) as [analysis|e]; cbn [fst snd appState events clock];
      by rewrite <- !app_assoc, ?app_nil_r.
  - cbn [fst snd appState events clock]. by rewrite <- !app_assoc.
Qed.

(** X10. A click on the verify button with a claim and a view that are not
    empty, answered by the judge with a 2xx status and a content: the
    handler shows the loading status, posts the one request built from the
    trimmed claim and the view, and displays the content, classified and
    unchanged; the store is not touched. *)
Theorem verifyBtn_click_displays (value : jsstring) (r : JudgeResponse)
    (analysis : jsstring) (w : World) :
  let claim := trim value in
  let sources := sourceContents (appState w) in
  let request := judge_request P claim sources in
  claim <> [] -> sources <> [] ->
  fetch_judge P request = Return r -> judge_ok r = true ->
  judge_content r = Return analysis ->
  verifyBtn_click P value w
  = ({| appState := appState w;
        events :=
          events w
            ++ [StatusShown (lit "Analyzing claim against sources...")
                  (lit "loading");
                JudgePost request;
                ResultDisplayed (lit "result-box show " ++ resultType analysis)
                  (result_markup_before ++ analysis ++ result_markup_after)];
        clock := clock w |},
     Return tt).
Proof.
  intros claim sources request Hclaim Hsources Hjudge Hok Hcontent.
  unfold verifyBtn_click. fold claim. unfold try_catch, bind at 1, get_appState.
  cbn [fst snd]. fold sources. unfold bind.
  rewrite (verifyClaimWithAI_answered claim sources r w); try done.
  2: { subst claim. by rewrite trim_idempotent. }
  rewrite Hok, Hcontent. cbn [fst snd]. rewrite displayResult_run.
  cbn [appState events clock]. by rewrite app_nil_r, <- !app_assoc.
Qed.

End Verifying.

Lemma verifyBtn_click_displays_witness :
  let w :=
    (handleFiles Sample.platform [Sample.sky_txt] initial_World).1 in
  verifyBtn_click Sample.platform (lit "  The sky is blue ") w
  = ({| appState := appState w;
        events :=
          events w
            ++ [StatusShown (lit "Analyzing claim against sources...")
                  (lit "loading");
                JudgePost (judge_request Sample.platform (lit "The sky is blue")
                             [Sample.sky_source]);
                ResultDisplayed (lit "result-box show valid")
                  (result_markup_before ++ Sample.verdict ++ result_markup_after)];
        clock := clock w |},
     Return tt).
Proof.
  apply (verifyBtn_click_displays Sample.platform (lit "  The sky is blue ")
           {| judge_status := 200; judge_error_message := None;
              judge_content := Return Sample.verdict |}
           Sample.verdict
           (handleFiles Sample.platform [Sample.sky_txt] initial_World).1);
    try reflexivity; vm_compute; discriminate.
Defined.

(** X11. When the judge answers with a status outside 200-299, the click
    on the verify button displays no result: it logs and shows, behind
    "Error: ", the message of the provider when the reply carries a
    non-empty one, and "API request failed: <status>" otherwise; the store
    is not touched. *)
Theorem verifyBtn_click_judge_failure (P : Platform) (value : jsstring)
    (r : JudgeResponse) (w : World) :
  let claim := trim value in
  let sources := sourceContents (appState w) in
  let request := judge_request P claim sources in
  let fallback :=
    lit "API request failed: " ++ Number_toString (judge_status r) in
  let message :=
    match judge_error_message r with
    | Some m => or_else m fallback
    | None => fallback
    end in
  claim <> [] -> sources <> [] ->
  fetch_judge P request = Return r -> judge_ok r = false ->
  verifyBtn_click P value w
  = ({| appState := appState w;
        events :=
          events w
            ++ [StatusShown (lit "Analyzing claim against sources...")
                  (lit "loading");
                JudgePost request;
                ConsoleError (lit "AI verification error:") message;
                StatusShown (lit "Error: " ++ message) (lit "error")];
        clock := clock w |},
     Return tt)
  /\ (forall m, judge_error_message r = Some m -> m <> [] -> message = m)
  /\ (judge_error_message r = None \/ judge_error_message r = Some [] ->
      message = fallback).
Proof.
  intros claim sources request fallback message Hclaim Hsources Hjudge Hok.
  split; [|split].
  - unfold verifyBtn_click. fold claim.
    unfold try_catch, bind at 1, get_appState. cbn [fst snd]. fold sources.
    unfold bind.
    rewrite (verifyClaimWithAI_answered P claim sources r w); try done.
    2: { subst claim. by rewrite trim_idempotent. }
    rewrite Hok. fold fallback message. run_task.
    by rewrite <- !app_assoc.
  - intros m Hm Hne. subst message. rewrite Hm. unfold or_else.
    by destruct m.
  - subst message. by intros [-> | ->].
Qed.

Lemma verifyBtn_click_judge_failure_witness :
  verifyBtn_click Samples.judge_down (lit "The sky is blue") Sample.store
  = ({| appState := appState Sample.store;
        events :=
          events Sample.store
            ++ [StatusShown (lit "Analyzing claim against sources...")
                  (lit "loading");
                JudgePost (judge_request Samples.judge_down
                             (lit "The sky is blue")
                             (sourceContents (appState Sample.store)));
                ConsoleError (lit "AI verification error:")
                  (lit "Incorrect API key provided.");
                StatusShown (lit "Error: Incorrect API key provided.")
                  (lit "error")];
        clock := clock Sample.store |},
     Return tt).
Proof.
  apply (verifyBtn_click_judge_failure Samples.judge_down
           (lit "The sky is blue")
           {| judge_status := 401;
              judge_error_message := Some (lit "Incorrect API key provided.");
              judge_content := Throw (lit "Cannot read properties of undefined") |}
           Sample.store);
    try reflexivity; vm_compute; discriminate.
Defined.

(** *** Batches of files *)

Section Batches.

Variable P : Platform.

(** [handleFiles] on a batch that is not empty, in terms of its loop. *)
Lemma handleFiles_run (files : list File) (w : World) :
  files <> [] ->
  let n := Number_toString (Z.of_nat (length files)) in
  let w0 :=
    {| appState := appState w;
       events :=
         events w
           ++ [StatusShown (lit "Processing " ++ n ++ lit " file(s)...")
                 (lit "loading")];
       clock := clock w |} in
  let w1 := (process_each P files w0).1 in
  match (process_each P files w0).2 with
  | Return _ =>
      exists rows,
        handleFiles P files w
        = ({| appState :=
                with_sourceContents (appState w1)
                  (uploadedFiles (appState w1) ++ urlSources (appState w1));
              events :=
                events w1
                  ++ [FileListRendered rows;
                      StatusShown
                        (lit "Successfully processed " ++ n ++ lit " file(s)!")
                        (lit "valid");
                      HideScheduled 2000];
              clock := clock w1 |},
           Return tt)
  | Throw e =>
      handleFiles P files w
      = ({| appState := appState w1;
            events := events w1 ++ [StatusShown (lit "Error: " ++ e) (lit "error")];
            clock := clock w1 |},
         Return tt)
  end.
Proof.
  intros Hfiles n w0 w1. subst w1. unfold handleFiles.
  rewrite (proj2 (Z.eqb_neq _ 0)) by (destruct files; [done | cbn; lia]).
  fold n. unfold updateSourceContents. run_task. fold w0.
  destruct (process_each P files w0) as [w1 [[]|e]]; cbn [fst snd];
    [|reflexivity].
  match goal with
  | |- context [updateFileList ?w2] =>
      destruct (updateFileList_run w2) as [rows Hrows]
  end.
  exists rows. rewrite Hrows. cbn [fst snd appState events clock].
  by rewrite <- !app_assoc.
Qed.

(** X12. A batch in which every file passes validation and can be read is
    ingested whole: one record per file is appended to [uploadedFiles], in
    the order of the batch, each with the metadata of its file and the text
    its extraction gives; the urls are left alone, the combined view is
    rebuilt, and the panel ends on the success message with the number of
    files. *)
Theorem handleFiles_complete (files : list File) (w : World) :
  files <> [] -> Forall (processable P) files ->
  let s := appState w in
  let w' := (handleFiles P files w).1 in
  exists records before,
    uploadedFiles (appState w') = uploadedFiles s ++ records
    /\ Forall2 (processed_from P) files records
    /\ urlSources (appState w') = urlSources s
    /\ sourceContents (appState w') = uploadedFiles s ++ records ++ urlSources s
    /\ events w'
       = before
           ++ [StatusShown
                 (lit "Successfully processed "
                    ++ Number_toString (Z.of_nat (length files))
                    ++ lit " file(s)!")
                 (lit "valid");
               HideScheduled 2000].
Proof.
  intros Hfiles Hall s w'. subst s w'.
  pose proof (handleFiles_run files w Hfiles) as Hrun. cbv zeta in Hrun.
  match type of Hrun with
  | context [process_each P files ?w0] =>
      destruct (process_each_run P files w0)
        as (added & Hup & Hurl & _ & _ & Hfrom & _ & Hend);
      destruct (process_each P files w0) as [w1 [[]|e]] eqn:Hloop;
      cbn [fst snd] in *
  end.
  - destruct Hrun as [rows ->]. cbn [fst appState events].
    rewrite Hend, firstn_all in Hfrom.
    exists added, (events w1 ++ [FileListRendered rows]).
    cbn. rewrite Hup, Hurl, <- !app_assoc. done.
  - exfalso. destruct Hend as (bad & Hbad & Hwhy).
    rewrite Forall_forall in Hall.
    destruct (Hall bad (list_elem_of_lookup_2 _ _ _ Hbad)) as [Hvalid Hread].
    destruct Hwhy as [Hthrow | (_ & Hnone & _)]; congruence.
Qed.

(** X13. A file that fails validation aborts the batch where it stands:
    when the files before it can all be processed, exactly their records
    are appended, in order; the files behind it are never looked at; the
    combined view is left as it was before the batch; and the panel ends
    on the validation error. *)
Theorem handleFiles_aborts (before after : list File) (bad : File)
    (e : jsstring) (w : World) :
  Forall (processable P) before -> validateFile bad = Throw e ->
  let s := appState w in
  let w' := (handleFiles P (before ++ bad :: after) w).1 in
  exists records,
    uploadedFiles (appState w') = uploadedFiles s ++ records
    /\ Forall2 (processed_from P) before records
    /\ urlSources (appState w') = urlSources s
    /\ sourceContents (appState w') = sourceContents s
    /\ last (events w') = Some (StatusShown (lit "Error: " ++ e) (lit "error")).
Proof.
  intros Hbefore Hbad s w'. subst s w'.
  set (files := before ++ bad :: after).
  assert (files <> []) as Hfiles by (subst files; by destruct before).
  pose proof (handleFiles_run files w Hfiles) as Hrun. cbv zeta in Hrun.
  match type of Hrun with
  | context [process_each P files ?w0] =>
      destruct (process_each_run P files w0)
        as (added & Hup & Hurl & Hview & _ & Hfrom & Hvalid & Hend);
      destruct (process_each P files w0) as [w1 [[]|e']] eqn:Hloop;
      cbn [fst snd] in *
  end.
  - exfalso. rewrite Hend, firstn_all, Forall_forall in Hvalid.
    assert (validateFile bad = Return true); [|congruence].
    apply Hvalid. subst files. apply elem_of_app. right. left.
  - destruct Hend as (file & Hfile & Hwhy).
    assert (length added = length before) as Hlen.
    { destruct (lt_eq_lt_dec (length added) (length before)) as [[Hlt|]|Hgt];
        [|done|]; exfalso.
      - subst files. rewrite lookup_app_l in Hfile by done.
        rewrite Forall_forall in Hbefore.
        destruct (Hbefore file (list_elem_of_lookup_2 _ _ _ Hfile))
          as [Hok Hread].
        destruct Hwhy as [Hthrow | (_ & Hnone & _)]; congruence.
      - rewrite Forall_forall in Hvalid.
        assert (validateFile bad = Return true); [|congruence].
        apply Hvalid, (list_elem_of_lookup_2 _ (length before)).
        rewrite lookup_take_lt by lia. subst files.
        by rewrite list_lookup_middle. }
    subst files. rewrite Hlen, list_lookup_middle in Hfile by done.
    injection Hfile as <-.
    assert (e' = e) as -> by (destruct Hwhy as [? | (? & _)]; congruence).
    rewrite Hlen, take_app_length in Hfrom.
    rewrite Hrun. cbn [fst appState events]. exists added.
    rewrite Hup, Hurl, Hview, last_snoc. done.
Qed.

End Batches.

Lemma handleFiles_complete_witness :
  let w' :=
    (handleFiles Sample.platform [Sample.sky_txt; Sample.report_pdf]
       Sample.store).1 in
  exists records before,
    uploadedFiles (appState w')
      = uploadedFiles (appState Sample.store) ++ records
    /\ Forall2 (processed_from Sample.platform)
         [Sample.sky_txt; Sample.report_pdf] records
    /\ urlSources (appState w') = urlSources (appState Sample.store)
    /\ sourceContents (appState w')
       = uploadedFiles (appState Sample.store) ++ records
           ++ urlSources (appState Sample.store)
    /\ events w'
       = before
           ++ [StatusShown
                 (lit "Successfully processed "
                    ++ Number_toString
                         (Z.of_nat (length [Sample.sky_txt; Sample.report_pdf]))
                    ++ lit " file(s)!")
                 (lit "valid");
               HideScheduled 2000].
Proof.
  apply (handleFiles_complete Sample.platform
           [Sample.sky_txt; Sample.report_pdf] Sample.store);
    [discriminate|].
  repeat constructor; discriminate.
Defined.

Lemma handleFiles_aborts_witness :
  let w' :=
    (handleFiles Sample.platform
       ([Sample.sky_txt] ++ Samples.movie_mp4 :: [Sample.report_pdf])
       Sample.store).1 in
  exists records,
    uploadedFiles (appState w')
      = uploadedFiles (appState Sample.store) ++ records
    /\ Forall2 (processed_from Sample.platform) [Sample.sky_txt] records
    /\ urlSources (appState w') = urlSources (appState Sample.store)
    /\ sourceContents (appState w') = sourceContents (appState Sample.store)
    /\ last (events w')
       = Some (StatusShown
                 (lit "Error: " ++ (lit "File type not supported: movie.mp4"))
                 (lit "error")).
Proof.
  apply (handleFiles_aborts Sample.platform [Sample.sky_txt]
           [Sample.report_pdf] Samples.movie_mp4
           (lit "File type not supported: movie.mp4") Sample.store);
    [|reflexivity].
  repeat constructor; discriminate.
Defined.

(** *** The pending claim *)

(** X14. The selection sent from the context menu reaches the panel once.
    After a click on the "verifyClaim" entry with a selection that is not
    empty, loading the panel puts the selection into the claim box and
    into [appState.pendingClaim] and takes it out of the storage, leaving
    every other key and the sources as they were; loading the panel once
    more changes nothing. *)
Theorem pending_claim_round_trip (open_panel : Z -> outcome unit)
    (text : jsstring) (tab_id : Z) (h : Host) :
  text <> [] ->
  let info := {| menuItemId := lit "verifyClaim"; selectionText := text |} in
  let h1 := onClicked open_panel info tab_id h in
  let h2 := panel_loaded true h1 in
  storage h1 !! "pendingClaim" = Some text
  /\ panel_requests h1 = panel_requests h ++ [tab_id]
  /\ claimBox h2 = text
  /\ pendingClaim (appState (world h2)) = Some text
  /\ storage h2 !! "pendingClaim" = None
  /\ (forall key, key <> "pendingClaim" -> storage h2 !! key = storage h !! key)
  /\ uploadedFiles (appState (world h2)) = uploadedFiles (appState (world h))
  /\ urlSources (appState (world h2)) = urlSources (appState (world h))
  /\ sourceContents (appState (world h2)) = sourceContents (appState (world h))
  /\ panel_loaded true h2 = h2.
Proof.
  intros Htext info h1 h2.
  assert (h1 = {| storage := <["pendingClaim" := text]> (storage h);
                  claimBox := claimBox h;
                  panel_requests := panel_requests h ++ [tab_id];
                  logged :=
                    match open_panel tab_id with
                    | Return _ => logged h
                    | Throw err => logged h ++ [lit "Error opening side panel:"; err]
                    end;
                  world := world h |}) as Hh1 by reflexivity.
  assert (storage h1 !! "pendingClaim" = Some text) as Hstored.
  { rewrite Hh1. cbn [storage]. apply lookup_insert_eq. }
  assert (falsy text = false) as Hfalsy by by destruct text.
  assert (h2 = {| storage := delete "pendingClaim" (storage h1);
                  claimBox := text;
                  panel_requests := panel_requests h1;
                  logged := logged h1;
                  world :=
                    {| appState :=
                         with_pendingClaim (appState (world h1)) (Some text);
                       events := events (world h1);
                       clock := clock (world h1) |} |}) as Hh2.
  { subst h2. unfold panel_loaded. by rewrite Hstored, Hfalsy. }
  split; [done|]. split; [by rewrite Hh1|]. rewrite Hh2.
  cbn [storage claimBox world appState with_pendingClaim pendingClaim
         uploadedFiles urlSources sourceContents].
  repeat split; try (by rewrite Hh1).
  - apply lookup_delete_eq.
  - intros key Hkey. rewrite lookup_delete_ne by done.
    rewrite Hh1. cbn [storage]. by rewrite lookup_insert_ne.
  - unfold panel_loaded. cbn [storage]. by rewrite lookup_delete_eq.
Qed.

Lemma pending_claim_round_trip_witness :
  let h1 :=
    onClicked (fun _ => Return tt)
      {| menuItemId := lit "verifyClaim"; selectionText := lit "The sky is blue" |}
      7 Samples.fresh_host in
  let h2 := panel_loaded true h1 in
  claimBox h2 = lit "The sky is blue"
  /\ pendingClaim (appState (world h2)) = Some (lit "The sky is blue")
  /\ storage h2 !! "pendingClaim" = None.
Proof.
  pose proof (pending_claim_round_trip (fun _ => Return tt)
                (lit "The sky is blue") 7 Samples.fresh_host) as H.
  cbv zeta in *.
  destruct H as (_ & _ & Hbox & Hpending & Hgone & _); [discriminate|].
  exact (conj Hbox (conj Hpending Hgone)).
Defined.

(** What the same listener and loader do outside that path: another menu
    entry stores nothing; an empty selection is stored but never taken. *)
Example other_menu_entry_ignored :
  onClicked (fun _ => Return tt)
    {| menuItemId := lit "copy"; selectionText := lit "The sky is blue" |}
    7 Samples.fresh_host
  = Samples.fresh_host.
Proof. reflexivity. Qed.

Example empty_selection_stays_stored :
  let h :=
    panel_loaded true
      (onClicked (fun _ => Return tt)
         {| menuItemId := lit "verifyClaim"; selectionText := [] |}
         7 Samples.fresh_host) in
  claimBox h = [] /\ storage h !! "pendingClaim" = Some [].
Proof. split; reflexivity. Qed.

(** *** The text of a PDF *)

Lemma pdf_fullText_concat (pages : list (list jsstring)) (init : jsstring) :
  fold_left
    (fun fullText items => fullText ++ (join items (lit " ") ++ [LF; LF]))
    pages init
  = init ++ concat ((fun items => pageText items ++ [LF; LF]) <$> pages).
Proof.
  revert init. induction pages as [|items pages IH]; intros init; cbn.
  - by rewrite app_nil_r.
  - rewrite IH. by rewrite <- !app_assoc.
Qed.

Lemma join_trailing (parts : list jsstring) (sep : jsstring) :
  parts <> [] ->
  concat ((fun p => p ++ sep) <$> parts) = join parts sep ++ sep.
Proof.
  induction parts as [|p [|q parts] IH]; [done| |]; intros _.
  - cbn. by rewrite app_nil_r.
  - cbn [fmap list_fmap concat join] in *. rewrite IH by done.
    by rewrite <- !app_assoc.
Qed.

Lemma blank_LF_LF : blank [LF; LF].
Proof. by repeat constructor. Qed.

(** X15. When the PDF backend reads the document, the text of a PDF is the
    texts of its pages (the items of a page joined by single spaces) with a
    blank line between pages, trimmed: the separator the loop appends
    after the last page is not part of the result, and a document without
    pages gives the empty text. *)
Theorem pdf_text_pages (P : Platform) (file : File)
    (backend : File -> outcome (list (list jsstring)))
    (pages : list (list jsstring)) (w : World) :
  is_pdf file = true -> pdfjsLib P = Some backend ->
  backend file = Return pages ->
  (extract P file w).2 = Return (trim (join (pageText <$> pages) [LF; LF]))
  /\ (pages = [] -> (extract P file w).2 = Return []).
Proof.
  intros Hpdf Hlib Hpages.
  assert ((extract P file w).2 = Return (trim (pdf_fullText pages))) as Hrun.
  { unfold extract. rewrite Hpdf. unfold extractTextFromPDF.
    rewrite Hlib. run_task. by rewrite Hpages. }
  split.
  - rewrite Hrun. f_equal. unfold pdf_fullText.
    rewrite pdf_fullText_concat. cbn [app].
    destruct pages as [|items pages]; [done|].
    rewrite (list_fmap_compose pageText (fun p => p ++ [LF; LF])).
    rewrite join_trailing by done.
    apply trim_app_blank, blank_LF_LF.
  - intros ->. by rewrite Hrun.
Qed.

Lemma pdf_text_pages_witness :
  (extract Samples.with_backends Sample.report_pdf initial_World).2
  = Return (lit "The sky" ++ [LF; LF] ++ lit "is blue.").
Proof.
  apply (proj1 (pdf_text_pages Samples.with_backends Sample.report_pdf
                  (fun _ => Return [[lit "The"; lit "sky"]; [lit "is"; lit "blue."]])
                  [[lit "The"; lit "sky"]; [lit "is"; lit "blue."]]
                  initial_World eq_refl eq_refl eq_refl)).
Defined.

(** *** Word documents *)

(** X16. A Word document (by type or by a name in .doc or .docx, and not a
    PDF) gets the raw text mammoth extracts, as it is; when mammoth is
    missing or throws, it gets the raw text of the file instead, and the
    extraction throws only if that read fails too. *)
Theorem word_extraction (P : Platform) (file : File) (w : World) :
  is_pdf file = false -> is_word file = true ->
  (forall backend text,
   mammoth P = Some backend -> backend file = Return text ->
   (extract P file w).2 = Return text)
  /\
  (word_backend_unavailable P file ->
   (extract P file w).2
   = match readAsText P file with
     | Some text => Return text
     | None => Throw (ReadFailed file)
     end).
Proof.
  intros Hpdf Hword. unfold extract. rewrite Hpdf, Hword.
  unfold extractTextFromWord. split.
  - intros backend text -> Hrun. run_task. by rewrite Hrun.
  - intros [-> | (backend & e & -> & Hthrow)]; run_task;
      rewrite ?Hthrow, ?readFileAsText_run; cbn [fst snd];
      destruct (readAsText P file) eqn:Hread; cbn [fst snd];
      rewrite ?readFileAsText_run, ?Hread; done.
Qed.

Lemma word_extraction_witness :
  (extract Samples.with_backends Samples.letter_docx initial_World).2
  = Return (lit "The sky is blue.").
Proof.
  apply (proj2 (word_extraction Samples.with_backends Samples.letter_docx
                  initial_World eq_refl eq_refl)).
  right. by eexists _, _.
Defined.

(** *** Validation *)

Lemma endsWith_suffix (s p : jsstring) :
  endsWith s p = true <-> exists base, s = base ++ p.
Proof.
  unfold endsWith. rewrite startsWith_prefix. split.
  - intros [rest Hrev]. exists (rev rest).
    by rewrite <- (rev_involutive s), Hrev, rev_app_distr, rev_involutive.
  - intros [base ->]. exists (rev base). by rewrite rev_app_distr.
Qed.

Lemma isValidType_spec (file : File) :
  isValidType file = true
  <-> file_type file ∈ ALLOWED_TYPES.*1
      \/ exists base tail,
           file_name file = base ++ tail
           /\ toLowerCase tail ∈ allowed_extensions.
Proof.
  unfold isValidType. rewrite orb_true_iff, !existsb_exists.
  apply Morphisms_Prop.or_iff_morphism.
  - split.
    + intros (t & Hin & Heq). unfold str_eqb in Heq.
      apply bool_decide_eq_true in Heq as ->. by apply list_elem_of_In.
    + intros Hin. exists (file_type file).
      split; [by apply list_elem_of_In | by apply bool_decide_eq_true].
  - split.
    + intros (ext & Hin & [base' Hends]%endsWith_suffix).
      unfold toLowerCase in Hends.
      apply fmap_app_inv in Hends as (base & tail & -> & -> & ->).
      exists base, tail. split; [done | by apply list_elem_of_In].
    + intros (base & tail & Hname & Hin). exists (toLowerCase tail).
      split; [by apply list_elem_of_In|]. apply endsWith_suffix.
      exists (toLowerCase base). rewrite Hname. unfold toLowerCase.
      by rewrite fmap_app.
Qed.

(** X17. [validateFile] accepts a file exactly when it is not over 10 MiB
    and either its type is one of the allowed media types or its name ends,
    in any mix of upper and lower case, with one of the allowed extensions:
    either signal is enough.  A file within the size limit with neither is
    refused as an unsupported type. *)
Theorem validateFile_accepts (file : File) :
  let known :=
    file_type file ∈ ALLOWED_TYPES.*1
    \/ exists base tail,
         file_name file = base ++ tail
         /\ toLowerCase tail ∈ allowed_extensions in
  (validateFile file = Return true
   <-> file_size file <= MAX_FILE_SIZE /\ known)
  /\ (file_size file <= MAX_FILE_SIZE -> ~ known ->
      validateFile file = Throw (lit "File type not supported: " ++ file_name file)).
Proof.
  intros known. subst known. rewrite <- isValidType_spec.
  unfold validateFile.
  destruct (Z.ltb_spec MAX_FILE_SIZE (file_size file)) as [Hbig|Hsmall].
  - split; [split; [done | lia] | lia].
  - destruct (isValidType file); cbn [negb].
    + split; [by split | by intros _ []].
    + split; [split; [done | by intros [_ ?]] | done].
Qed.

Lemma validateFile_accepts_witness :
  validateFile Samples.notes_TXT = Return true
  /\ validateFile Samples.movie_mp4
     = Throw (lit "File type not supported: " ++ lit "movie.mp4").
Proof.
  split.
  - apply (proj1 (validateFile_accepts Samples.notes_TXT)). split.
    + vm_compute. discriminate.
    + right. exists (lit "NOTES"), (lit ".TXT"). split; [reflexivity|].
      vm_compute. do 3 right. left.
  - apply (proj2 (validateFile_accepts Samples.movie_mp4)).
    + vm_compute. discriminate.
    + rewrite <- isValidType_spec. vm_compute. discriminate.
Defined.

(** *** Images *)

(** X18. An image (by type, with neither a PDF nor a Word name) is never
    read as raw text: when the OCR throws, its text is the sentinel
    "[Image: name]" with the note that the extraction failed, and once it
    has passed validation [processFile] always returns its record, with a
    text that is not empty, whether or not the file can be read. *)
Theorem image_ingestion (P : Platform) (file : File) (w : World) :
  is_pdf file = false -> is_word file = false -> is_image file = true ->
  (forall recognize e,
   Tesseract P = Some recognize -> recognize file = Throw e ->
   (extract P file w).2
   = Return (lit "[Image: " ++ file_name file ++ lit "]" ++ [LF]
             ++ lit "Failed to extract text from image."))
  /\
  (validateFile file = Return true ->
   exists text,
     text <> []
     /\ (processFile P file w).2
        = Return (FileSource (file_name file) (file_type file)
                    (file_size file) text (toISOString P (clock w)))).
Proof.
  intros Hpdf Hword Himage.
  assert (extract P file = extractTextFromImage P file) as Hocr.
  { unfold extract. by rewrite Hpdf, Hword, Himage. }
  rewrite Hocr. split.
  - intros recognize e Hlib Hrun. unfold extractTextFromImage, image_sentinel.
    rewrite Hlib. run_task. by rewrite Hrun.
  - intros Hvalid.
    assert (exists text, text <> []
                         /\ (extractTextFromImage P file w).2 = Return text)
      as (text & Hne & Htext).
    { unfold extractTextFromImage, image_sentinel. run_task.
      destruct (Tesseract P) as [recognize|]; run_task.
      - destruct (recognize file) as [text|e]; cbn [fst snd].
        + eexists. split; [|reflexivity]. by apply or_else_nonempty.
        + eexists. split; [|reflexivity]. done.
      - eexists. split; [|reflexivity]. done. }
    exists text. split; [done|]. rewrite <- Hocr in Htext.
    destruct (processFile_ok P file w text Hvalid Htext) as (w1 & -> & _).
    done.
Qed.

Lemma image_ingestion_witness :
  (extract Samples.ocr_down Sample.photo_png initial_World).2
    = Return (lit "[Image: photo.png]" ++ [LF]
              ++ lit "Failed to extract text from image.")
  /\ exists text,
       text <> []
       /\ (processFile Samples.ocr_down Sample.photo_png initial_World).2
          = Return (FileSource (lit "photo.png") (lit "image/png") 4096 text
                      (lit "2026-01-24T12:00:00.000Z")).
Proof.
  destruct (image_ingestion Samples.ocr_down Sample.photo_png initial_World
              eq_refl eq_refl eq_refl) as [Hfail Hrecord].
  split.
  - apply (Hfail (fun _ => Throw (lit "Failed to load language data"))
             (lit "Failed to load language data")); reflexivity.
  - apply Hrecord. reflexivity.
Defined.

(** *** From ingestion to verification *)

Section EndToEnd.

Variable P : Platform.

(** The store after a batch that is ingested whole. *)
Lemma handleFiles_complete_store (files : list File) (w : World) :
  files <> [] -> Forall (processable P) files ->
  let s := appState w in
  let s' := appState (handleFiles P files w).1 in
  exists records,
    Forall2 (processed_from P) files records
    /\ uploadedFiles s' = uploadedFiles s ++ records
    /\ urlSources s' = urlSources s
    /\ sourceContents s' = uploadedFiles s ++ records ++ urlSources s.
Proof.
  intros Hfiles Hall s s'. subst s s'.
  destruct (handleFiles_appState P files w) as (w0 & Happ & _ & ->); [done|].
  destruct (process_each_run P files w0)
    as (added & Hup & Hurl & _ & _ & Hfrom & _ & Hend).
  destruct (process_each P files w0).2 as [[]|e].
  - rewrite Hend, firstn_all in Hfrom. exists added. cbn.
    rewrite Hup, Hurl, Happ, <- !app_assoc. done.
  - exfalso. destruct Hend as (bad & Hbad & Hwhy).
    rewrite Forall_forall in Hall.
    destruct (Hall bad (list_elem_of_lookup_2 _ _ _ Hbad)) as [Hvalid Hread].
    destruct Hwhy as [Hthrow | (_ & Hnone & _)]; congruence.
Qed.

(** X19. Choosing a batch of files that can all be processed and then
    clicking verify with a claim that is not blank sends exactly one
    request, to the judge, and the sources it is built from are the files
    already in the store, then the records of the batch in order (each
    with the text its extraction gave), then the urls: what was just
    ingested is what is verified. *)
Theorem ingest_then_verify (files : list File) (value : jsstring) (w : World) :
  files <> [] -> Forall (processable P) files -> trim value <> [] ->
  let s := appState w in
  exists records,
    Forall2 (processed_from P) files records
    /\ network_calls (session P [FilesChosen files; VerifyClicked value] w)
       = network_calls w
           ++ [JudgePost
                 (judge_request P (trim value)
                    (uploadedFiles s ++ records ++ urlSources s))].
Proof.
  intros Hfiles Hall Hclaim s. subst s.
  destruct (handleFiles_complete_store files w Hfiles Hall)
    as (records & Hfrom & _ & _ & Hview).
  exists records. split; [done|]. cbn [session handler].
  rewrite verifyBtn_click_requests, quiet_handleFiles. f_equal.
  unfold requests_of. rewrite Hview.
  destruct (trim value) as [|c claim]; [done|].
  destruct records as [|r records].
  { apply Forall2_length in Hfrom. by destruct files. }
  by destruct (uploadedFiles (appState w)).
Qed.

(** X20. The combined view goes stale in one way only: when an action turns
    a view that agrees with the store into one that does not, the action
    is a choice of files of which at least one fails validation or cannot
    be read. *)
Theorem only_failed_batches_stale (a : Action) (w : World) :
  view_fresh (appState w) ->
  ~ view_fresh (appState (handler P a w).1) ->
  exists files, a = FilesChosen files /\ ~ Forall (processable P) files.
Proof.
  intros Hfresh Hstale. destruct a as [files|value|value|index type|[row|]];
    cbn [handler] in Hstale.
  - exists files. split; [done|]. intros Hall. apply Hstale.
    by apply handleFiles_complete_view.
  - destruct Hstale. by apply fetchUrlBtn_click_view.
  - destruct Hstale. by rewrite keeps_store_verifyBtn_click.
  - destruct Hstale. apply removeSource_view.
  - destruct Hstale. apply removeSource_view.
  - by destruct Hstale.
Qed.

End EndToEnd.

Lemma ingest_then_verify_witness :
  exists records,
    Forall2 (processed_from Sample.platform) [Sample.sky_txt] records
    /\ network_calls
         (session Sample.platform
            [FilesChosen [Sample.sky_txt]; VerifyClicked (lit "The sky is blue")]
            initial_World)
       = network_calls initial_World
           ++ [JudgePost
                 (judge_request Sample.platform (trim (lit "The sky is blue"))
                    (uploadedFiles (appState initial_World) ++ records
                       ++ urlSources (appState initial_World)))].
Proof.
  apply (ingest_then_verify Sample.platform [Sample.sky_txt]
           (lit "The sky is blue") initial_World); [discriminate | | ].
  - repeat constructor; discriminate.
  - vm_compute. discriminate.
Defined.

Lemma only_failed_batches_stale_witness :
  exists files,
    FilesChosen [Sample.sky_txt; Sample.huge_pdf] = FilesChosen files
    /\ ~ Forall (processable Sample.platform) files.
Proof.
  apply (only_failed_batches_stale Sample.platform
           (FilesChosen [Sample.sky_txt; Sample.huge_pdf]) initial_World).
  - reflexivity.
  - unfold view_fresh. vm_compute. discriminate.
Defined.
